(** * osdu-mcp-server: request context, header extraction middleware, auth precedence

    A shallow embedding of
      - [src/osdu_mcp_server/shared/request_context.py]  (module [RequestContext]),
      - [src/osdu_mcp_server/http_app.py], class [TokenExtractionMiddleware]
        (module [HttpApp]),
    together with the Python string operations they use (module [PyStr])
    and the precedence rule of the Auth Resolver (module [AuthHandler]).

    Python [str] values that occur here are either ASCII constants of the
    source or header values obtained by [bytes.decode("latin-1")]; both are
    sequences of code points below 256, so a Rocq [string] (a list of 8-bit
    characters) represents them exactly, and [encode("latin-1")] /
    [decode("latin-1")] are the identity on the representation. *)

From Stdlib Require Import Ascii String.
From stdpp Require Import base option strings list gmap.

Local Open Scope string_scope.

(** ** Python string operations *)

Module PyStr.

(** [str.lower()] on one code point below 256: the ASCII capitals and the
    Latin-1 capitals U+00C0..U+00DE (without the multiplication sign
    U+00D7) move up by 32; every other code point is its own lower case. *)
Definition lower_char (a : ascii) : ascii :=
  let n := nat_of_ascii a in
  if (((65 <=? n) && (n <=? 90))
      || ((192 <=? n) && (n <=? 222) && negb (n =? 215)))%nat
  then ascii_of_nat (n + 32)
  else a.

(** [s.lower()] *)
Fixpoint lower (s : string) : string :=
  match s with
  | EmptyString => EmptyString
  | String a s' => String (lower_char a) (lower s')
  end.

(** [s.startswith(p)] *)
Fixpoint startswith (s p : string) {struct p} : bool :=
  match p, s with
  | EmptyString, _ => true
  | String _ _, EmptyString => false
  | String b p', String a s' => if Ascii.eqb a b then startswith s' p' else false
  end.

(** [s[n:]] for [n >= 0] *)
Fixpoint slice_from (n : nat) (s : string) : string :=
  match n, s with
  | O, _ => s
  | S _, EmptyString => EmptyString
  | S n', String _ s' => slice_from n' s'
  end.

(** [s.rstrip(c)] for a one-character argument [c] *)
Fixpoint rstrip (c : ascii) (s : string) : string :=
  match s with
  | EmptyString => EmptyString
  | String a s' =>
      match rstrip c s' with
      | EmptyString => if Ascii.eqb a c then EmptyString else String a EmptyString
      | r => String a r
      end
  end.

(** Truth value of a [str | None] in a condition ([if token:]): [None]
    and the empty string are false. *)
Definition truthy (o : option string) : bool :=
  match o with
  | None => false
  | Some EmptyString => false
  | Some (String _ _) => true
  end.

(** [bytes.lower()]: ASCII capitals only. *)
Definition bytes_lower_char (a : ascii) : ascii :=
  let n := nat_of_ascii a in
  if ((65 <=? n) && (n <=? 90))%nat then ascii_of_nat (n + 32) else a.

Fixpoint bytes_lower (s : string) : string :=
  match s with
  | EmptyString => EmptyString
  | String a s' => String (bytes_lower_char a) (bytes_lower s')
  end.

(** [c * k] for a one-character string (used to state [rstrip]). *)
Fixpoint repeat_char (c : ascii) (k : nat) : string :=
  match k with
  | O => EmptyString
  | S k' => String c (repeat_char c k')
  end.

(** [s.endswith(c)] for a one-character argument. *)
Fixpoint endswith_char (s : string) (c : ascii) : bool :=
  match s with
  | EmptyString => false
  | String a EmptyString => Ascii.eqb a c
  | String _ s' => endswith_char s' c
  end.

(** Code points below 128. *)
Definition is_ascii_char (c : ascii) : bool := (nat_of_ascii c <? 128)%nat.

Fixpoint is_ascii_str (s : string) : bool :=
  match s with
  | EmptyString => true
  | String c s' => is_ascii_char c && is_ascii_str s'
  end.

End PyStr.

(** ** request_context.py *)

Module RequestContext.

(** Values of type [Any] stored in the metadata mapping.  The middleware
    stores strings; [None] is the default of [get_request_metadata]. *)
Inductive pyval : Type :=
| PyNone
| PyStr (s : string).

(** Identity of a [dict] object.  [DefaultDict] is the one dictionary
    created when the module is loaded and passed as [default={}] to the
    [ContextVar] of line 30; [Allocated n] is the [n]-th dictionary
    created later by a [{}] expression. *)
Inductive dictref : Type :=
| DefaultDict
| Allocated (n : nat).

(** The dictionaries, shared by all contexts of the process. *)
Record Heap : Type := mkHeap {
  default_dict : gmap string pyval;
  allocated : list (gmap string pyval)
}.

(** What [_request_metadata] can hold: the annotation says a [dict], the
    code of [set_request_metadata] and [get_request_metadata] also tests
    for [None]. *)
Inductive metadata_value : Type :=
| MetaNone
| MetaDict (r : dictref).

(** One [contextvars.Context]: for each of the four [ContextVar]s, the
    value bound in this context, or [None] when the variable has no
    binding here (then [ContextVar.get] returns the variable's default). *)
Record Context : Type := mkContext {
  _request_user_token : option (option string);
  _request_server_url : option (option string);
  _request_data_partition : option (option string);
  _request_metadata : option metadata_value
}.

(** A context in which nothing has been set. *)
Definition empty_context : Context := mkContext None None None None.

(** The state a piece of code runs on: the shared heap and the current
    context. *)
Record World : Type := mkWorld {
  heap : Heap;
  ctx : Context
}.

(** State passing. *)
Definition M (A : Type) : Type := World -> A * World.

Definition ret {A} (a : A) : M A := fun w => (a, w).

Definition bind {A B} (m : M A) (k : A -> M B) : M B :=
  fun w => let '(a, w') := m w in k a w'.

Definition run {A} (m : M A) (w : World) : World := snd (m w).
Definition result {A} (m : M A) (w : World) : A := fst (m w).

Declare Scope ctx_scope.
Delimit Scope ctx_scope with ctx.
Notation "x <- m ;; k" := (bind m (fun x => k))
  (at level 100, m at next level, right associativity) : ctx_scope.
Notation "m ;; k" := (bind m (fun _ => k))
  (at level 100, right associativity) : ctx_scope.
Local Open Scope ctx_scope.

(** [m] leaves what [obs] reads unchanged. *)
Definition preserves {A B} (obs : M A) (m : M B) : Prop :=
  forall w, result obs (run m w) = result obs w.

(** *** Heap operations *)

(** The contents of a dictionary.  A reference to a dictionary that was
    never allocated cannot arise in Python; it reads as empty here. *)
Definition deref (h : Heap) (r : dictref) : gmap string pyval :=
  match r with
  | DefaultDict => default_dict h
  | Allocated n => default ∅ (allocated h !! n)
  end.

(** [d[key] = value] on the dictionary [r], in place. *)
Definition setitem (r : dictref) (key : string) (value : pyval) (h : Heap) : Heap :=
  match r with
  | DefaultDict => mkHeap (<[key := value]> (default_dict h)) (allocated h)
  | Allocated n =>
      mkHeap (default_dict h)
             (<[n := <[key := value]> (deref h r)]> (allocated h))
  end.

(** The expression [{}]: a new, empty dictionary. *)
Definition new_dict : M dictref :=
  fun w =>
    let h := heap w in
    (Allocated (length (allocated h)),
     mkWorld (mkHeap (default_dict h) (allocated h ++ [∅])) (ctx w)).

Definition dict_setitem (r : dictref) (key : string) (value : pyval) : M unit :=
  fun w => (tt, mkWorld (setitem r key value (heap w)) (ctx w)).

(** [d.get(key, default)] *)
Definition dict_get (r : dictref) (key : string) (dflt : pyval) : M pyval :=
  fun w => (default dflt (deref (heap w) r !! key), w).

(** *** The four context variables: [ContextVar.get] and [ContextVar.set] *)

Definition user_token_get : M (option string) :=
  fun w => (default None (_request_user_token (ctx w)), w).
Definition user_token_set (v : option string) : M unit :=
  fun w =>
    let c := ctx w in
    (tt, mkWorld (heap w)
           (mkContext (Some v) (_request_server_url c)
                      (_request_data_partition c) (_request_metadata c))).

Definition server_url_get : M (option string) :=
  fun w => (default None (_request_server_url (ctx w)), w).
Definition server_url_set (v : option string) : M unit :=
  fun w =>
    let c := ctx w in
    (tt, mkWorld (heap w)
           (mkContext (_request_user_token c) (Some v)
                      (_request_data_partition c) (_request_metadata c))).

Definition data_partition_get : M (option string) :=
  fun w => (default None (_request_data_partition (ctx w)), w).
Definition data_partition_set (v : option string) : M unit :=
  fun w =>
    let c := ctx w in
    (tt, mkWorld (heap w)
           (mkContext (_request_user_token c) (_request_server_url c)
                      (Some v) (_request_metadata c))).

(** The default of [_request_metadata] is the dictionary object
    [DefaultDict], the same object for every context. *)
Definition metadata_get : M metadata_value :=
  fun w => (default (MetaDict DefaultDict) (_request_metadata (ctx w)), w).
Definition metadata_set (v : metadata_value) : M unit :=
  fun w =>
    let c := ctx w in
    (tt, mkWorld (heap w)
           (mkContext (_request_user_token c) (_request_server_url c)
                      (_request_data_partition c) (Some v))).

(** *** The module's functions *)

Definition set_request_user_token (token : option string) : M unit :=
  user_token_set token.

Definition get_request_user_token : M (option string) :=
  user_token_get.

Definition clear_request_user_token : M unit :=
  user_token_set None.

Definition set_request_server_url (url : option string) : M unit :=
  server_url_set url.

Definition get_request_server_url : M (option string) :=
  server_url_get.

Definition clear_request_server_url : M unit :=
  server_url_set None.

Definition set_request_data_partition (partition : option string) : M unit :=
  data_partition_set partition.

Definition get_request_data_partition : M (option string) :=
  data_partition_get.

Definition clear_request_data_partition : M unit :=
  data_partition_set None.

Definition set_request_metadata (key : string) (value : pyval) : M unit :=
  current <- metadata_get ;;
  r <- match current with
       | MetaNone => new_dict
       | MetaDict r => ret r
       end ;;
  dict_setitem r key value ;;
  metadata_set (MetaDict r).

Definition get_request_metadata (key : string) (dflt : pyval) : M pyval :=
  current <- metadata_get ;;
  match current with
  | MetaNone => ret dflt
  | MetaDict r => dict_get r key dflt
  end.

Definition clear_request_metadata : M unit :=
  r <- new_dict ;;
  metadata_set (MetaDict r).

(** *** Several contexts over one heap

    Every request is served in a context of its own (an asyncio task runs
    in a copy of the context it was created in), while dictionaries live
    in the one heap of the process.  [tasks] maps a task to its context;
    a task not yet in the map starts from [empty_context]. *)
Record System : Type := mkSystem {
  shared : Heap;
  tasks : gmap nat Context
}.

(** The process right after the module is loaded: the default dictionary
    is empty and nothing else has been created. *)
Definition initial_heap : Heap := mkHeap ∅ [].
Definition initial_world : World := mkWorld initial_heap empty_context.
Definition initial_system : System := mkSystem initial_heap ∅.

Definition context_of (s : System) (i : nat) : Context :=
  default empty_context (tasks s !! i).

(** Run [m] in the context of task [i]. *)
Definition in_task {A} (i : nat) (m : M A) (s : System) : A * System :=
  let '(a, w) := m (mkWorld (shared s) (context_of s i)) in
  (a, mkSystem (heap w) (<[i := ctx w]> (tasks s))).

End RequestContext.

(** ** http_app.py: TokenExtractionMiddleware *)

Module HttpApp.
Import PyStr RequestContext.
Local Open Scope ctx_scope.

Definition USER_TOKEN_HEADER : string := "osdu_mcp_user_token".
Definition ALT_TOKEN_HEADERS : list string :=
  ["osdu-mcp-user-token"; "x-osdu-mcp-user-token"].

Definition SERVER_URL_HEADER : string := "osdu_mcp_server_url".
Definition ALT_SERVER_URL_HEADERS : list string :=
  ["osdu-mcp-server-url"; "x-osdu-mcp-server-url"].

Definition DATA_PARTITION_HEADER : string := "osdu_mcp_data_partition".
Definition ALT_DATA_PARTITION_HEADERS : list string :=
  ["osdu-mcp-data-partition"; "x-osdu-mcp-data-partition"].

(** The part of an ASGI scope the middleware reads: [scope["type"]] and
    [scope.get("headers", [])], a list of (name, value) pairs of bytes;
    [None] stands for a scope without the key ["headers"]. *)
Record Scope : Type := mkScope {
  scope_type : string;
  scope_headers : option (list (string * string))
}.

(** [dict(pairs)]: a later pair replaces an earlier one with the same key. *)
Definition dict_of_pairs (pairs : list (string * string)) : gmap string string :=
  foldl (fun d kv => <[kv.1 := kv.2]> d) ∅ pairs.

(** [_extract_header]: the values of [headers] are [bytes], so the
    [isinstance] test holds and the value is decoded. *)
Fixpoint _extract_header (headers : gmap string string)
                         (header_names : list string) : option string :=
  match header_names with
  | [] => None
  | header_name :: rest =>
      let header_bytes := lower header_name in
      match headers !! header_bytes with
      | Some value => Some value
      | None => _extract_header headers rest
      end
  end.

(** How a call ends: it returns, or an exception propagates out of it. *)
Inductive Outcome : Type :=
| Returned
| Raised (exc : string).

(** The wrapped ASGI application.  [receive] and [send] are handed on
    untouched and are left out. *)
Definition ASGIApp : Type := Scope -> M Outcome.

(** Lines 86-94. *)
Definition store_token (token : option string) : M unit :=
  match token with
  | Some token =>
      if truthy (Some token) then
        let token :=
          if startswith (lower token) "bearer " then slice_from 7 token
          else token in
        set_request_user_token (Some token) ;;
        set_request_metadata "token_source" (PyStr "http_header")
      else ret tt
  | None => ret tt
  end.

(** Lines 100-105. *)
Definition store_server_url (server_url : option string) : M unit :=
  match server_url with
  | Some server_url =>
      if truthy (Some server_url) then
        let server_url := rstrip "/" server_url in
        set_request_server_url (Some server_url) ;;
        set_request_metadata "server_url_source" (PyStr "http_header")
      else ret tt
  | None => ret tt
  end.

(** Lines 111-114. *)
Definition store_data_partition (data_partition : option string) : M unit :=
  match data_partition with
  | Some data_partition =>
      if truthy (Some data_partition) then
        set_request_data_partition (Some data_partition) ;;
        set_request_metadata "data_partition_source" (PyStr "http_header")
      else ret tt
  | None => ret tt
  end.

(** Lines 80-114: everything before the [try]. *)
Definition extract (scope : Scope) : M unit :=
  let headers := dict_of_pairs (default [] (scope_headers scope)) in
  store_token
    (_extract_header headers ([USER_TOKEN_HEADER] ++ ALT_TOKEN_HEADERS)) ;;
  store_server_url
    (_extract_header headers ([SERVER_URL_HEADER] ++ ALT_SERVER_URL_HEADERS)) ;;
  store_data_partition
    (_extract_header headers
       ([DATA_PARTITION_HEADER] ++ ALT_DATA_PARTITION_HEADERS)).

(** Lines 120-123: the body of the [finally]. *)
Definition cleanup : M unit :=
  clear_request_user_token ;;
  clear_request_server_url ;;
  clear_request_data_partition ;;
  clear_request_metadata.

(** [try: body finally: handler], for a handler that cannot raise: the
    handler runs whichever way the body ends, and the body's outcome (a
    return, or the exception on its way up) is the outcome of the whole. *)
Definition try_finally (body : M Outcome) (handler : M unit) : M Outcome :=
  r <- body ;;
  handler ;;
  ret r.

Definition is_request_scope (scope : Scope) : bool :=
  String.eqb (scope_type scope) "http" || String.eqb (scope_type scope) "websocket".

(** [TokenExtractionMiddleware.__call__], with [self.app] as [app]. *)
Definition __call__ (app : ASGIApp) (scope : Scope) : M Outcome :=
  if negb (is_request_scope scope) then app scope
  else
    extract scope ;;
    try_finally (app scope) cleanup.

End HttpApp.

(** ** The ASGI server in front of the middleware

    The middleware is handed the scope built by the ASGI server.  The ASGI
    HTTP connection scope carries header names lower-cased; that is the
    server's work, upstream of this repository's code, and it is what the
    comment "case-insensitive in HTTP" of http_app.py relies on. *)

Module Asgi.
Import PyStr HttpApp.

(** The scope of an HTTP request whose header fields, as sent, are [fields]. *)
Definition http_scope (fields : list (string * string)) : Scope :=
  mkScope "http" (Some (map (fun kv => (bytes_lower kv.1, kv.2)) fields)).

End Asgi.

(** ** The Auth Resolver *)

Module AuthHandler.
Import RequestContext.
Local Open Scope ctx_scope.

(** Modelled from the spec: the result of "get current access credential"
    (shared/auth_handler.py is not among the sources): a credential, or the
    failure [AuthenticationUnavailable] of section 4.3, step 3. *)
Inductive Credential : Type :=
| AccessToken (token : string)
| AuthenticationUnavailable.

(** Modelled from the spec: the resolver's own state
    (shared/auth_handler.py is not among the sources): the static token of
    the process configuration (if one is configured), the credential
    provider (its answer to the [n]-th request made to it), and how often
    the static path has been entered and the provider asked so far. *)
Record Resolver : Type := mkResolver {
  static_token : option string;
  provider : nat -> option string;
  static_path_entered : nat;
  provider_calls : nat
}.

(** Modelled from the spec: the static credential path of the Auth
    Resolver (shared/auth_handler.py is not among the sources).  Section
    4.3, steps 2 and 3: a pre-configured static token, else the
    managed-identity provider, else [AuthenticationUnavailable]. *)
Definition static_credential_path (a : Resolver) : Credential * Resolver :=
  match static_token a with
  | Some t =>
      (AccessToken t,
       mkResolver (static_token a) (provider a)
                  (S (static_path_entered a)) (provider_calls a))
  | None =>
      (match provider a (provider_calls a) with
       | Some t => AccessToken t
       | None => AuthenticationUnavailable
       end,
       mkResolver (static_token a) (provider a)
                  (S (static_path_entered a)) (S (provider_calls a)))
  end.

(** Modelled from the spec: [AuthHandler.get_access_token]
    (shared/auth_handler.py is not among the sources; only its test
    tests/shared/test_auth_request_context.py is).  Section 4.3, step 1:
    a non-unset [user_token] of the Request Context Store is returned
    verbatim; otherwise the static credential path decides. *)
Definition get_access_token (a : Resolver) : M (Credential * Resolver) :=
  request_token <- get_request_user_token ;;
  match request_token with
  | Some token => ret (AccessToken token, a)
  | None => ret (static_credential_path a)
  end.

End AuthHandler.

(** ** Sample applications behind the middleware *)

Module Apps.
Import RequestContext HttpApp.

(** An application that overwrites the token and then fails. *)
Definition failing_app : ASGIApp :=
  fun _ => bind (set_request_user_token (Some "set-downstream"))
                (fun _ => ret (Raised "RuntimeError")).

End Apps.

(** ** Vocabulary of the specification *)

Module Spec.
Import PyStr RequestContext HttpApp.

(** The three override categories. *)
Inductive Category : Type :=
| Token
| ServerUrl
| DataPartition.

(** The canonical header name of a category. *)
Definition canonical (cat : Category) : string :=
  match cat with
  | Token => USER_TOKEN_HEADER
  | ServerUrl => SERVER_URL_HEADER
  | DataPartition => DATA_PARTITION_HEADER
  end.

(** The names [__call__] passes to [_extract_header] for a category. *)
Definition header_names (cat : Category) : list string :=
  match cat with
  | Token => [USER_TOKEN_HEADER] ++ ALT_TOKEN_HEADERS
  | ServerUrl => [SERVER_URL_HEADER] ++ ALT_SERVER_URL_HEADERS
  | DataPartition => [DATA_PARTITION_HEADER] ++ ALT_DATA_PARTITION_HEADERS
  end.

(** The getter of a category's context field. *)
Definition stored (cat : Category) : M (option string) :=
  match cat with
  | Token => get_request_user_token
  | ServerUrl => get_request_server_url
  | DataPartition => get_request_data_partition
  end.

(** The metadata key under which the middleware records a category's source. *)
Definition source_key (cat : Category) : string :=
  match cat with
  | Token => "token_source"
  | ServerUrl => "server_url_source"
  | DataPartition => "data_partition_source"
  end.

(** The headers dictionary [__call__] builds from a scope. *)
Definition headers_of (scope : Scope) : gmap string string :=
  dict_of_pairs (default [] (scope_headers scope)).

(** What [_extract_header] finds for a category in a scope. *)
Definition found (cat : Category) (scope : Scope) : option string :=
  _extract_header (headers_of scope) (header_names cat).

(** [p] spells [q] up to the case of its letters. *)
Definition same_up_to_case (p q : string) : Prop :=
  bytes_lower p = bytes_lower q.

(** [v] starts with the seven characters of ["Bearer "], in any letter case. *)
Definition has_bearer_prefix (v : string) : Prop :=
  exists p rest,
    v = p +:+ rest /\ String.length p = 7 /\ same_up_to_case p "Bearer ".

(** Section 8 on the token: with the prefix, the value without its first
    seven characters is stored; without it, the value itself. *)
Definition token_stored_as_specified (v : string) (stored : option string) : Prop :=
  (has_bearer_prefix v ->
   exists p rest, v = p +:+ rest /\ String.length p = 7 /\ stored = Some rest) /\
  (~ has_bearer_prefix v -> stored = Some v).

(** Section 8 on the server URL: a run of slashes at the end is removed
    as a whole; a value without one is stored as it is. *)
Definition url_stored_as_specified (v : string) (stored : option string) : Prop :=
  (endswith_char v "/" = true ->
   exists u k, stored = Some u /\ v = u +:+ repeat_char "/" k /\
               endswith_char u "/" = false) /\
  (endswith_char v "/" = false -> stored = Some v).

End Spec.

(** ** Vocabulary for the laws of the store and of the headers dictionary *)

Module Laws.
Import PyStr RequestContext HttpApp Spec.

(** The setter of a category's context field. *)
Definition setter (cat : Category) : option string -> M unit :=
  match cat with
  | Token => set_request_user_token
  | ServerUrl => set_request_server_url
  | DataPartition => set_request_data_partition
  end.

(** The clear operation of a category's context field. *)
Definition clearer (cat : Category) : M unit :=
  match cat with
  | Token => clear_request_user_token
  | ServerUrl => clear_request_server_url
  | DataPartition => clear_request_data_partition
  end.

(** The dictionary the context's [_request_metadata] refers to, if it
    refers to one, is a dictionary of the heap.  Every state a Python run
    can reach satisfies this: a reference is obtained from [{}] only. *)
Definition metadata_ref_valid (h : Heap) (c : Context) : bool :=
  match _request_metadata c with
  | Some (MetaDict (Allocated n)) => (n <? length (allocated h))%nat
  | _ => true
  end.

(** The nine header names the middleware looks for. *)
Definition all_header_names : list string :=
  (header_names Token ++ header_names ServerUrl ++ header_names DataPartition)%list.

(** An application that sets a server URL and returns. *)
Definition url_setting_app : ASGIApp :=
  fun _ => bind (set_request_server_url (Some "https://set.by.app"))
                (fun _ => ret Returned).

(** An application that does nothing and returns. *)
Definition idle_app : ASGIApp := fun _ => ret Returned.

(** What lines 88-89 (token), line 102 (server URL) and line 112 (data
    partition) make of a header value before it is stored. *)
Definition normalised (cat : Category) (v : string) : string :=
  match cat with
  | Token => if startswith (lower v) "bearer " then slice_from 7 v else v
  | ServerUrl => rstrip "/" v
  | DataPartition => v
  end.

(** The dictionary [get_request_metadata] reads in a context: the default
    dictionary without a binding, none when the variable holds [None]. *)
Definition read_dict (c : Context) : option dictref :=
  match _request_metadata c with
  | None => Some DefaultDict
  | Some MetaNone => None
  | Some (MetaDict r) => Some r
  end.

(** The dictionary [set_request_metadata] writes to in a context: the one
    it gets from the variable, or the one it creates when the variable
    holds [None]. *)
Definition written_dict (h : Heap) (c : Context) : dictref :=
  match _request_metadata c with
  | None => DefaultDict
  | Some MetaNone => Allocated (length (allocated h))
  | Some (MetaDict r) => r
  end.

(** Several [set_request_metadata] calls in a row. *)
Fixpoint set_all (writes : list (string * pyval)) : M unit :=
  match writes with
  | [] => ret tt
  | kv :: rest => bind (set_request_metadata kv.1 kv.2) (fun _ => set_all rest)
  end.

End Laws.

(** * Properties *)

(** ** Strings *)

Module PyStrFacts.
Import PyStr Spec.

#[local] Arguments String.append !_ _ / : simpl nomatch.

(** Where one of the two lowerings lands below 128, they agree: the extra
    work of [str.lower] is confined to U+00C0..U+00DE. *)
Lemma lower_char_agree (a : ascii) :
  is_ascii_char (lower_char a) || is_ascii_char (bytes_lower_char a) = true ->
  lower_char a = bytes_lower_char a.
Proof.
  destruct a as [[] [] [] [] [] [] [] []]; vm_compute; intros H;
    first [reflexivity | discriminate H].
Qed.

Lemma lower_char_iff (a c : ascii) :
  is_ascii_char c = true -> (lower_char a = c <-> bytes_lower_char a = c).
Proof.
  intros Hc; split; intros <-.
  - symmetry; apply lower_char_agree. now rewrite Hc.
  - apply lower_char_agree. rewrite Hc. apply orb_true_r.
Qed.

Lemma lower_iff_bytes_lower (p q : string) :
  is_ascii_str q = true -> (lower p = q <-> bytes_lower p = q).
Proof.
  revert q; induction p as [|a p IH]; intros [|c q]; simpl; try tauto;
    try (intros _; split; discriminate).
  intros [Hc Hq]%andb_prop.
  specialize (IH q Hq). pose proof (lower_char_iff a c Hc) as Ha.
  split; intros [= E1 E2]; f_equal; tauto.
Qed.

Lemma lower_app (p rest : string) :
  lower (p +:+ rest) = lower p +:+ lower rest.
Proof. induction p as [|a p IH]; simpl; [reflexivity | now rewrite IH]. Qed.

Lemma lower_length (s : string) : String.length (lower s) = String.length s.
Proof. induction s as [|a s IH]; simpl; [reflexivity | now rewrite IH]. Qed.

(** [startswith] after lowering finds exactly the prefixes that lower to [q]. *)
Lemma startswith_lower_iff (v q : string) :
  startswith (lower v) q = true <->
  exists p rest, v = p +:+ rest /\ lower p = q.
Proof.
  revert v; induction q as [|b q IH]; intros v.
  - simpl. split; [intros _; exists "", v; split; reflexivity | reflexivity].
  - destruct v as [|a v]; simpl.
    + split; [discriminate |].
      intros (p & rest & Hv & Hp). destruct p; simpl in *; discriminate.
    + destruct (Ascii.eqb_spec (lower_char a) b) as [Hab | Hab].
      * rewrite IH. split.
        -- intros (p & rest & -> & Hp). exists (String a p), rest.
           simpl. now rewrite Hp, Hab.
        -- intros (p & rest & Hv & Hp). destruct p as [|a' p]; simpl in *;
             [discriminate |].
           injection Hv as -> ->. injection Hp as _ Hp. now exists p, rest.
      * split; [discriminate |].
        intros (p & rest & Hv & Hp). destruct p as [|a' p]; simpl in *;
          [discriminate |].
        injection Hv as -> ->. injection Hp as Hp _. contradiction.
Qed.

(** The test of line 88 is the specification's "starts with Bearer and a
    space, in any letter case". *)
Lemma startswith_bearer_iff (v : string) :
  startswith (lower v) "bearer " = true <-> has_bearer_prefix v.
Proof.
  rewrite startswith_lower_iff. unfold has_bearer_prefix, same_up_to_case.
  split.
  - intros (p & rest & Hv & Hp). exists p, rest. split; [exact Hv |].
    split.
    + rewrite <- (lower_length p), Hp. reflexivity.
    + apply lower_iff_bytes_lower in Hp; [| reflexivity]. rewrite Hp.
      reflexivity.
  - intros (p & rest & Hv & _ & Hp). exists p, rest. split; [exact Hv |].
    apply lower_iff_bytes_lower; [reflexivity | exact Hp].
Qed.

Lemma slice_from_app (p rest : string) :
  slice_from (String.length p) (p +:+ rest) = rest.
Proof. induction p as [|a p IH]; simpl; [now destruct rest | exact IH]. Qed.

(** [rstrip] removes a run of [c] at the end ... *)
Lemma rstrip_decompose (c : ascii) (s : string) :
  exists k, s = rstrip c s +:+ repeat_char c k.
Proof.
  induction s as [|a s [k IH]]; simpl.
  - exists 0%nat. reflexivity.
  - destruct (rstrip c s) as [|b r] eqn:E.
    + destruct (Ascii.eqb_spec a c) as [-> | Hac].
      * exists (S k). simpl in *. now rewrite <- IH.
      * exists k. simpl in *. now rewrite <- IH.
    + exists k. simpl in *. now rewrite <- IH.
Qed.

(** ... and the whole run: what is left does not end in [c]. *)
Lemma rstrip_no_trailing (c : ascii) (s : string) :
  endswith_char (rstrip c s) c = false.
Proof.
  induction s as [|a s IH]; simpl; [reflexivity |].
  destruct (rstrip c s) as [|b r] eqn:E.
  - destruct (Ascii.eqb a c) eqn:Hac; simpl; [reflexivity | exact Hac].
  - exact IH.
Qed.

Lemma rstrip_id (c : ascii) (s : string) :
  endswith_char s c = false -> rstrip c s = s.
Proof.
  induction s as [|a s IH]; simpl; [reflexivity |].
  destruct s as [|b s'].
  - simpl. now intros ->.
  - intros H. rewrite (IH H). reflexivity.
Qed.

End PyStrFacts.

(** ** The request context store *)

Module RequestContextFacts.
Import RequestContext.
Local Open Scope ctx_scope.

Create HintDb preserves discriminated.

Ltac ctx_unfold :=
  unfold preserves, run, result, bind, ret,
    set_request_user_token, get_request_user_token, clear_request_user_token,
    set_request_server_url, get_request_server_url, clear_request_server_url,
    set_request_data_partition, get_request_data_partition,
    clear_request_data_partition,
    set_request_metadata, get_request_metadata, clear_request_metadata,
    user_token_get, user_token_set, server_url_get, server_url_set,
    data_partition_get, data_partition_set, metadata_get, metadata_set,
    new_dict, dict_setitem, dict_get in *.

Ltac destruct_world w :=
  let dd := fresh "dd" in
  let al := fresh "al" in
  let m := fresh "m" in
  destruct w as [[dd al] [? ? ? [[|[|?]]|]]].

(** A dictionary created by [{}] is empty when first read. *)
Lemma lookup_fresh_dict (al : list (gmap string pyval)) (key : string) :
  default (∅ : gmap string pyval) ((al ++ [∅])%list !! length al) !! key = None.
Proof. rewrite list_lookup_middle by reflexivity. simpl. apply lookup_empty. Qed.

Lemma preserves_ret {A B} (obs : M A) (b : B) : preserves obs (ret b).
Proof. intros w. reflexivity. Qed.

Lemma preserves_bind {A B C} (obs : M A) (m : M B) (k : B -> M C) :
  preserves obs m -> (forall b, preserves obs (k b)) -> preserves obs (bind m k).
Proof.
  intros Hm Hk w. specialize (Hm w). unfold run, bind in *.
  destruct (m w) as [b w1]. simpl in *. rewrite <- Hm. apply (Hk b w1).
Qed.

(** Each setter writes its own variable only. *)
Lemma user_token_set_server_url v : preserves get_request_server_url (user_token_set v).
Proof. intros w. reflexivity. Qed.
Lemma user_token_set_data_partition v :
  preserves get_request_data_partition (user_token_set v).
Proof. intros w. reflexivity. Qed.
Lemma user_token_set_metadata v key dflt :
  preserves (get_request_metadata key dflt) (user_token_set v).
Proof. intros w. destruct_world w; reflexivity. Qed.

Lemma server_url_set_user_token v : preserves get_request_user_token (server_url_set v).
Proof. intros w. reflexivity. Qed.
Lemma server_url_set_data_partition v :
  preserves get_request_data_partition (server_url_set v).
Proof. intros w. reflexivity. Qed.
Lemma server_url_set_metadata v key dflt :
  preserves (get_request_metadata key dflt) (server_url_set v).
Proof. intros w. destruct_world w; reflexivity. Qed.

Lemma data_partition_set_user_token v :
  preserves get_request_user_token (data_partition_set v).
Proof. intros w. reflexivity. Qed.
Lemma data_partition_set_server_url v :
  preserves get_request_server_url (data_partition_set v).
Proof. intros w. reflexivity. Qed.
Lemma data_partition_set_metadata v key dflt :
  preserves (get_request_metadata key dflt) (data_partition_set v).
Proof. intros w. destruct_world w; reflexivity. Qed.

(** [set_request_metadata] leaves the three scalar variables alone ... *)
Lemma set_request_metadata_user_token key value :
  preserves get_request_user_token (set_request_metadata key value).
Proof. intros w. destruct_world w; reflexivity. Qed.
Lemma set_request_metadata_server_url key value :
  preserves get_request_server_url (set_request_metadata key value).
Proof. intros w. destruct_world w; reflexivity. Qed.
Lemma set_request_metadata_data_partition key value :
  preserves get_request_data_partition (set_request_metadata key value).
Proof. intros w. destruct_world w; reflexivity. Qed.

(** ... and, in its own context, every other key. *)
Lemma set_request_metadata_other key key' value dflt :
  key <> key' ->
  preserves (get_request_metadata key dflt) (set_request_metadata key' value).
Proof.
  intros Hne w. destruct_world w; ctx_unfold; simpl.
  - rewrite list_lookup_insert_eq by (rewrite length_app; simpl; lia). simpl.
    rewrite lookup_insert_ne by congruence. now rewrite lookup_fresh_dict.
  - now rewrite lookup_insert_ne by congruence.
  - destruct (decide (n < length al)%nat) as [Hlt | Hge].
    + rewrite list_lookup_insert_eq by exact Hlt. simpl.
      now rewrite lookup_insert_ne by congruence.
    + now rewrite list_insert_ge by lia.
  - now rewrite lookup_insert_ne by congruence.
Qed.

(** A value just set is read back. *)
Lemma get_after_set_user_token v w :
  result get_request_user_token (run (set_request_user_token v) w) = v.
Proof. reflexivity. Qed.
Lemma get_after_set_server_url v w :
  result get_request_server_url (run (set_request_server_url v) w) = v.
Proof. reflexivity. Qed.
Lemma get_after_set_data_partition v w :
  result get_request_data_partition (run (set_request_data_partition v) w) = v.
Proof. reflexivity. Qed.

#[export] Hint Resolve preserves_ret
  user_token_set_server_url user_token_set_data_partition user_token_set_metadata
  server_url_set_user_token server_url_set_data_partition server_url_set_metadata
  data_partition_set_user_token data_partition_set_server_url
  data_partition_set_metadata
  set_request_metadata_user_token set_request_metadata_server_url
  set_request_metadata_data_partition : preserves.

End RequestContextFacts.

(** ** The middleware *)

Module HttpAppFacts.
Import PyStr RequestContext HttpApp Spec PyStrFacts RequestContextFacts.
Local Open Scope ctx_scope.

Lemma truthy_false (o : option string) :
  truthy o = false <-> o = None \/ o = Some "".
Proof.
  destruct o as [[|a s]|]; simpl; split; intros H; try tauto;
    try discriminate; destruct H; discriminate.
Qed.

Lemma truthy_true (v : string) : v <> "" -> truthy (Some v) = true.
Proof. destruct v; [contradiction | reflexivity]. Qed.

(** A falsy header value makes each of the three steps a no-op. *)
Lemma store_token_skip o : truthy o = false -> store_token o = ret tt.
Proof. unfold store_token. destruct o; [intros -> |]; reflexivity. Qed.
Lemma store_server_url_skip o : truthy o = false -> store_server_url o = ret tt.
Proof. unfold store_server_url. destruct o; [intros -> |]; reflexivity. Qed.
Lemma store_data_partition_skip o :
  truthy o = false -> store_data_partition o = ret tt.
Proof. unfold store_data_partition. destruct o; [intros -> |]; reflexivity. Qed.

Ltac store_preserves f :=
  intros; unfold f;
  match goal with
  | |- preserves _ (match ?o with Some _ => _ | None => _ end) =>
      destruct o as [v|]; [destruct (truthy (Some v)) |]
  end;
  cbv zeta;
  unfold set_request_user_token, set_request_server_url,
    set_request_data_partition;
  repeat match goal with
         | |- preserves _ (bind _ _) => apply preserves_bind; [| intros ?]
         end;
  auto using set_request_metadata_other with preserves.

(** Each step leaves the other two fields alone ... *)
Lemma store_token_server_url o : preserves get_request_server_url (store_token o).
Proof. store_preserves store_token. Qed.
Lemma store_token_data_partition o :
  preserves get_request_data_partition (store_token o).
Proof. store_preserves store_token. Qed.
Lemma store_server_url_user_token o :
  preserves get_request_user_token (store_server_url o).
Proof. store_preserves store_server_url. Qed.
Lemma store_server_url_data_partition o :
  preserves get_request_data_partition (store_server_url o).
Proof. store_preserves store_server_url. Qed.
Lemma store_data_partition_user_token o :
  preserves get_request_user_token (store_data_partition o).
Proof. store_preserves store_data_partition. Qed.
Lemma store_data_partition_server_url o :
  preserves get_request_server_url (store_data_partition o).
Proof. store_preserves store_data_partition. Qed.

(** ... and every metadata key but its own source key. *)
Lemma store_token_metadata o key dflt :
  key <> "token_source" ->
  preserves (get_request_metadata key dflt) (store_token o).
Proof. store_preserves store_token. Qed.
Lemma store_server_url_metadata o key dflt :
  key <> "server_url_source" ->
  preserves (get_request_metadata key dflt) (store_server_url o).
Proof. store_preserves store_server_url. Qed.
Lemma store_data_partition_metadata o key dflt :
  key <> "data_partition_source" ->
  preserves (get_request_metadata key dflt) (store_data_partition o).
Proof. store_preserves store_data_partition. Qed.

(** [extract] is the three steps in a row, each on what [_extract_header]
    finds for its category. *)
Lemma extract_steps scope :
  extract scope =
  (store_token (found Token scope) ;;
   store_server_url (found ServerUrl scope) ;;
   store_data_partition (found DataPartition scope)).
Proof. reflexivity. Qed.

Lemma run_bind {A B} (m : M A) (k : A -> M B) w :
  run (bind m k) w = run (k (result m w)) (run m w).
Proof. unfold run, result, bind. now destruct (m w). Qed.

(** What the token step stores. *)
Lemma store_token_stores v w :
  v <> "" ->
  result get_request_user_token (run (store_token (Some v)) w)
  = Some (if startswith (lower v) "bearer " then slice_from 7 v else v).
Proof.
  intros Hv. unfold store_token. rewrite (truthy_true v Hv).
  rewrite run_bind. rewrite set_request_metadata_user_token. reflexivity.
Qed.

Lemma store_server_url_stores v w :
  v <> "" ->
  result get_request_server_url (run (store_server_url (Some v)) w)
  = Some (rstrip "/" v).
Proof.
  intros Hv. unfold store_server_url. rewrite (truthy_true v Hv).
  rewrite run_bind. rewrite set_request_metadata_server_url. reflexivity.
Qed.

Lemma store_data_partition_stores v w :
  v <> "" ->
  result get_request_data_partition (run (store_data_partition (Some v)) w)
  = Some v.
Proof.
  intros Hv. unfold store_data_partition. rewrite (truthy_true v Hv).
  rewrite run_bind. rewrite set_request_metadata_data_partition. reflexivity.
Qed.

(** The fields after [extract], in terms of the single steps. *)
Lemma extract_user_token scope w :
  result get_request_user_token (run (extract scope) w)
  = result get_request_user_token (run (store_token (found Token scope)) w).
Proof.
  rewrite extract_steps, !run_bind.
  now rewrite store_data_partition_user_token, store_server_url_user_token.
Qed.

Lemma extract_server_url scope w :
  result get_request_server_url (run (extract scope) w)
  = result get_request_server_url
      (run (store_server_url (found ServerUrl scope))
           (run (store_token (found Token scope)) w)).
Proof.
  rewrite extract_steps, !run_bind.
  now rewrite store_data_partition_server_url.
Qed.

Lemma extract_data_partition scope w :
  result get_request_data_partition (run (extract scope) w)
  = result get_request_data_partition
      (run (store_data_partition (found DataPartition scope))
           (run (store_server_url (found ServerUrl scope))
                (run (store_token (found Token scope)) w))).
Proof. now rewrite extract_steps, !run_bind. Qed.

(** After [cleanup], every getter answers with its default. *)
Lemma cleanup_clears w key dflt :
  result get_request_user_token (run cleanup w) = None /\
  result get_request_server_url (run cleanup w) = None /\
  result get_request_data_partition (run cleanup w) = None /\
  result (get_request_metadata key dflt) (run cleanup w) = dflt.
Proof.
  destruct w as [[dd al] c]. repeat split.
  unfold cleanup; ctx_unfold; simpl. now rewrite lookup_fresh_dict.
Qed.

(** [try_finally] runs the handler on whatever the body leaves behind
    and passes the body's outcome on. *)
Lemma try_finally_run body handler w :
  run (try_finally body handler) w = run handler (run body w).
Proof.
  unfold try_finally, run, bind, ret. destruct (body w) as [r w1]. simpl.
  now destruct (handler w1).
Qed.

Lemma try_finally_result body handler w :
  result (try_finally body handler) w = result body w.
Proof.
  unfold try_finally, result, bind, ret. destruct (body w) as [r w1]. simpl.
  now destruct (handler w1).
Qed.

End HttpAppFacts.

(** * The claims *)

Import PyStr RequestContext HttpApp Asgi AuthHandler Apps Spec Laws.
Import PyStrFacts RequestContextFacts HttpAppFacts.

(** ** Cleanup after a request *)

(** X16.  In the context [__call__] ran in: for a scope of type "http" (or
    "websocket"), whatever the wrapped application does to the context and
    whether it returns or raises, once [__call__] is over the three getters
    answer [None] and a metadata lookup answers the default the caller
    supplies, for every key: the four clear operations of the [finally]
    block have run.  (What other contexts read afterwards is another
    matter: entries written into the shared default dictionary stay.) *)
Theorem context_cleared_after_request
    (app : ASGIApp) (scope : Scope) (w : World) (key : string) (dflt : pyval) :
  is_request_scope scope = true ->
  let after := run (__call__ app scope) w in
  result get_request_user_token after = None /\
  result get_request_server_url after = None /\
  result get_request_data_partition after = None /\
  result (get_request_metadata key dflt) after = dflt.
Proof.
  intros Hreq after. subst after. unfold __call__. rewrite Hreq. simpl negb.
  cbv iota. rewrite run_bind, try_finally_run. apply cleanup_clears.
Qed.

Lemma context_cleared_after_request_witness :
  let scope := http_scope [("osdu_mcp_user_token", "Bearer abc");
                           ("osdu_mcp_server_url", "https://osdu.example.com/")] in
  is_request_scope scope = true /\
  result (__call__ failing_app scope) initial_world = Raised "RuntimeError" /\
  let after := run (__call__ failing_app scope) initial_world in
  result get_request_user_token after = None /\
  result get_request_server_url after = None /\
  result get_request_data_partition after = None /\
  result (get_request_metadata "token_source" PyNone) after = PyNone.
Proof.
  split; [reflexivity |]. split; [vm_compute; reflexivity |].
  apply (context_cleared_after_request failing_app
           (http_scope [("osdu_mcp_user_token", "Bearer abc");
                        ("osdu_mcp_server_url", "https://osdu.example.com/")])
           initial_world "token_source" PyNone).
  reflexivity.
Defined.

(** ** Normalisation of the token *)

(** C3, as amended.  For every non-empty token header value [v] found by
    the middleware: if [v] starts with the seven characters of "Bearer " in
    any letter case, the stored user token is [v] without exactly those
    seven characters; otherwise it is [v] itself. *)
Theorem bearer_prefix_stripped (scope : Scope) (w : World) (v : string) :
  found Token scope = Some v ->
  v <> "" ->
  token_stored_as_specified v
    (result get_request_user_token (run (extract scope) w)).
Proof.
  intros Hfound Hv. rewrite extract_user_token, Hfound, store_token_stores by exact Hv.
  split.
  - intros Hpre. pose proof Hpre as (p & rest & -> & Hlen & _).
    apply startswith_bearer_iff in Hpre. rewrite Hpre.
    exists p, rest. repeat split; [exact Hlen |].
    rewrite <- Hlen. now rewrite slice_from_app.
  - intros Hno. destruct (startswith (lower v) "bearer ") eqn:E; [| reflexivity].
    apply startswith_bearer_iff in E. contradiction.
Qed.

Lemma bearer_prefix_stripped_witness :
  let scope := http_scope [("X-OSDU-MCP-User-Token", "bEaReR abc.def")] in
  found Token scope = Some "bEaReR abc.def" /\
  "bEaReR abc.def" <> "" /\
  has_bearer_prefix "bEaReR abc.def" /\
  result get_request_user_token (run (extract scope) initial_world) = Some "abc.def" /\
  token_stored_as_specified "bEaReR abc.def"
    (result get_request_user_token (run (extract scope) initial_world)).
Proof.
  split; [vm_compute; reflexivity |]. split; [discriminate |].
  split; [exists "bEaReR ", "abc.def"; repeat split |].
  split; [vm_compute; reflexivity |].
  apply (bearer_prefix_stripped
           (http_scope [("X-OSDU-MCP-User-Token", "bEaReR abc.def")])
           initial_world "bEaReR abc.def");
    [vm_compute; reflexivity | discriminate].
Defined.

(** C3, as stated, fails on the empty value: a token header with an empty
    value is found by [_extract_header], it does not start with the prefix,
    and yet it is not stored (the guard [if token:] of line 86 skips it). *)
Lemma empty_token_value_not_stored :
  let scope := http_scope [("osdu_mcp_user_token", "")] in
  found Token scope = Some "" /\
  ~ token_stored_as_specified ""
      (result get_request_user_token (run (extract scope) initial_world)).
Proof.
  split; [vm_compute; reflexivity |].
  intros [_ Hno].
  assert (Hnp : ~ has_bearer_prefix "").
  { intros (p & rest & Hv & Hlen & _). destruct p; simpl in *; discriminate. }
  specialize (Hno Hnp). vm_compute in Hno. discriminate Hno.
Qed.

(** ** Normalisation of the server URL *)

(** C4, as amended.  For every non-empty server-URL header value [v] found
    by the middleware: if [v] ends in one or more slashes, the stored
    server URL is [v] without that whole run of slashes; a value that does
    not end in a slash is stored unchanged. *)
Theorem trailing_slashes_stripped (scope : Scope) (w : World) (v : string) :
  found ServerUrl scope = Some v ->
  v <> "" ->
  url_stored_as_specified v
    (result get_request_server_url (run (extract scope) w)).
Proof.
  intros Hfound Hv.
  rewrite extract_server_url, Hfound, store_server_url_stores by exact Hv.
  split.
  - intros _. destruct (rstrip_decompose "/" v) as [k Hk].
    exists (rstrip "/" v), k. repeat split; [exact Hk |].
    apply rstrip_no_trailing.
  - intros Hend. now rewrite rstrip_id.
Qed.

Lemma trailing_slashes_stripped_witness :
  let scope := http_scope [("osdu-mcp-server-url", "https://osdu.example.com//")] in
  found ServerUrl scope = Some "https://osdu.example.com//" /\
  "https://osdu.example.com//" <> "" /\
  result get_request_server_url (run (extract scope) initial_world)
    = Some "https://osdu.example.com" /\
  url_stored_as_specified "https://osdu.example.com//"
    (result get_request_server_url (run (extract scope) initial_world)).
Proof.
  split; [vm_compute; reflexivity |]. split; [discriminate |].
  split; [vm_compute; reflexivity |].
  apply (trailing_slashes_stripped
           (http_scope [("osdu-mcp-server-url", "https://osdu.example.com//")])
           initial_world "https://osdu.example.com//");
    [vm_compute; reflexivity | discriminate].
Defined.

(** C4, as stated, fails on the empty value: a server-URL header with an
    empty value is found, has no trailing slash, and is not stored (the
    guard [if server_url:] of line 100 skips it). *)
Lemma empty_server_url_value_not_stored :
  let scope := http_scope [("osdu_mcp_server_url", "")] in
  found ServerUrl scope = Some "" /\
  ~ url_stored_as_specified ""
      (result get_request_server_url (run (extract scope) initial_world)).
Proof.
  split; [vm_compute; reflexivity |].
  intros [_ Hno]. specialize (Hno eq_refl). vm_compute in Hno. discriminate Hno.
Qed.

(** ** Header names *)

(** The configured names are lower-case already: lowering them, the way
    [_extract_header] does and the way the server does, changes nothing. *)
Lemma configured_names_lower (cat : Category) (name : string) :
  name ∈ header_names cat -> lower name = name /\ bytes_lower name = name.
Proof.
  intros Hin. destruct cat; simpl in Hin;
    repeat (apply elem_of_cons in Hin as [-> | Hin]; [split; reflexivity |]);
    now apply elem_of_nil in Hin.
Qed.

(** [_extract_header] answers with the value of the first of the names that
    is a key of the dictionary. *)
Lemma _extract_header_first
    (headers : gmap string string) (names : list string) (i : nat)
    (name value : string) :
  names !! i = Some name ->
  headers !! lower name = Some value ->
  (forall j earlier, (j < i)%nat -> names !! j = Some earlier ->
                     headers !! lower earlier = None) ->
  _extract_header headers names = Some value.
Proof.
  revert i; induction names as [|n names IH]; intros i Hi Hv Hbefore.
  - now rewrite lookup_nil in Hi.
  - destruct i as [|i]; simpl in *.
    + injection Hi as ->. now rewrite Hv.
    + rewrite (Hbefore 0%nat n) by (reflexivity || lia).
      apply (IH i Hi Hv). intros j earlier Hj Hl.
      apply (Hbefore (S j) earlier); [lia | exact Hl].
Qed.

(** With no name among the keys, nothing is found. *)
Lemma _extract_header_none (headers : gmap string string) (names : list string) :
  (forall name, name ∈ names -> headers !! lower name = None) ->
  _extract_header headers names = None.
Proof.
  induction names as [|n names IH]; intros Hnone; simpl; [reflexivity |].
  rewrite (Hnone n) by apply list_elem_of_here.
  apply IH. intros name Hin. apply Hnone. now apply list_elem_of_further.
Qed.

(** A request with one header of a category: what is found for each
    category does not depend on which variant of the name was sent. *)
Lemma found_variant (cat cat' : Category) (name sent value : string) :
  name ∈ header_names cat ->
  bytes_lower sent = bytes_lower name ->
  found cat' (http_scope [(sent, value)])
  = found cat' (http_scope [(canonical cat, value)]).
Proof.
  intros Hin Hsent.
  rewrite (proj2 (configured_names_lower cat name Hin)) in Hsent.
  unfold found, headers_of, http_scope. simpl scope_headers. simpl default.
  simpl map. rewrite Hsent. clear Hsent sent.
  destruct cat; simpl in Hin;
    repeat (apply elem_of_cons in Hin as [-> | Hin];
            [destruct cat'; vm_compute; reflexivity |]);
    now apply elem_of_nil in Hin.
Qed.

(** C5.  For every category, every name [name] the category is configured
    with (the canonical one and the two alternatives) and every spelling
    [sent] of that name in another letter case: the request that carries
    only the header [sent] leaves the context (the three fields and the
    metadata) exactly as the request that carries the canonical header with
    the same content.  The server hands the names over lower-cased
    ([http_scope]); [_extract_header] matches the lower-cased configured
    names against them. *)
Theorem header_variants_equivalent
    (cat : Category) (name sent value : string) (w : World) :
  name ∈ header_names cat ->
  bytes_lower sent = bytes_lower name ->
  run (extract (http_scope [(sent, value)])) w
  = run (extract (http_scope [(canonical cat, value)])) w.
Proof.
  intros Hin Hsent. rewrite !extract_steps.
  now rewrite !(found_variant cat _ name sent value Hin Hsent).
Qed.

Lemma header_variants_equivalent_witness :
  "x-osdu-mcp-server-url" ∈ header_names ServerUrl /\
  bytes_lower "X-OSDU-MCP-Server-URL" = bytes_lower "x-osdu-mcp-server-url" /\
  result get_request_server_url
    (run (extract (http_scope [("X-OSDU-MCP-Server-URL", "https://a.example/")]))
         initial_world) = Some "https://a.example" /\
  run (extract (http_scope [("X-OSDU-MCP-Server-URL", "https://a.example/")]))
      initial_world
  = run (extract (http_scope [(canonical ServerUrl, "https://a.example/")]))
        initial_world.
Proof.
  split; [simpl; do 2 apply list_elem_of_further; apply list_elem_of_here |].
  split; [reflexivity |]. split; [vm_compute; reflexivity |].
  apply (header_variants_equivalent ServerUrl "x-osdu-mcp-server-url"
           "X-OSDU-MCP-Server-URL" "https://a.example/" initial_world).
  - simpl; do 2 apply list_elem_of_further; apply list_elem_of_here.
  - reflexivity.
Defined.

(** C6.  The names of a category are tried in the configured order, the
    canonical name first and then the alternatives as listed; when several
    of them are present in the request's headers, with whatever values,
    the middleware finds the value of the first one present: the value
    under [name] is found as soon as no name listed before [name] is
    present, whatever the names listed after it carry. *)
Theorem first_matching_header_wins
    (cat : Category) (scope : Scope) (i : nat) (name value : string) :
  header_names cat !! i = Some name ->
  headers_of scope !! name = Some value ->
  (forall j earlier, (j < i)%nat -> header_names cat !! j = Some earlier ->
                     headers_of scope !! earlier = None) ->
  header_names cat !! 0%nat = Some (canonical cat) /\
  found cat scope = Some value.
Proof.
  intros Hi Hv Hbefore. split; [now destruct cat |].
  unfold found. apply (_extract_header_first _ _ i name value Hi).
  - destruct (configured_names_lower cat name) as [-> _]; [| exact Hv].
    apply list_elem_of_lookup. now exists i.
  - intros j earlier Hj Hl.
    destruct (configured_names_lower cat earlier) as [-> _].
    + apply list_elem_of_lookup. now exists j.
    + now apply (Hbefore j).
Qed.

Lemma first_matching_header_wins_witness :
  let scope := http_scope [("x-osdu-mcp-user-token", "third");
                           ("osdu-mcp-user-token", "second")] in
  header_names Token !! 1%nat = Some "osdu-mcp-user-token" /\
  headers_of scope !! "osdu-mcp-user-token" = Some "second" /\
  headers_of scope !! "x-osdu-mcp-user-token" = Some "third" /\
  result get_request_user_token (run (extract scope) initial_world) = Some "second" /\
  header_names Token !! 0%nat = Some (canonical Token) /\
  found Token scope = Some "second".
Proof.
  split; [reflexivity |]. split; [vm_compute; reflexivity |].
  split; [vm_compute; reflexivity |]. split; [vm_compute; reflexivity |].
  apply (first_matching_header_wins Token
           (http_scope [("x-osdu-mcp-user-token", "third");
                        ("osdu-mcp-user-token", "second")])
           1%nat "osdu-mcp-user-token" "second").
  - reflexivity.
  - vm_compute; reflexivity.
  - intros j earlier Hj Hl. destruct j as [|j]; [| lia].
    injection Hl as <-. vm_compute; reflexivity.
Defined.

(** ** Forwarding *)

Lemma result_bind {A B} (m : M A) (k : A -> M B) (w : World) :
  result (bind m k) w = result (k (result m w)) (run m w).
Proof. unfold run, result, bind. now destruct (m w). Qed.

(** A category for which nothing usable is found keeps its field through
    [extract]. *)
Lemma extract_keeps_unfound (cat : Category) (scope : Scope) (w : World) :
  truthy (found cat scope) = false ->
  result (stored cat) (run (extract scope) w) = result (stored cat) w.
Proof.
  intros Hno. destruct cat; simpl stored.
  - now rewrite extract_user_token, store_token_skip.
  - rewrite extract_server_url, store_server_url_skip by exact Hno.
    apply store_token_server_url.
  - rewrite extract_data_partition, store_data_partition_skip by exact Hno.
    change (run (ret tt) ?x) with x.
    rewrite store_server_url_data_partition. apply store_token_data_partition.
Qed.

(** A category whose header carries a non-empty value has that value,
    normalised, in its field after [extract]. *)
Lemma extract_stores_found (cat : Category) (scope : Scope) (w : World) (v : string) :
  found cat scope = Some v ->
  v <> "" ->
  result (stored cat) (run (extract scope) w) = Some (normalised cat v).
Proof.
  intros Hfound Hv. destruct cat; simpl stored; simpl normalised.
  - now rewrite extract_user_token, Hfound, store_token_stores.
  - now rewrite extract_server_url, Hfound, store_server_url_stores.
  - now rewrite extract_data_partition, Hfound, store_data_partition_stores.
Qed.

(** C7, as amended.  Whatever the scope and its headers, [__call__] ends
    the way the wrapped application ends on that same scope: the
    application is run on the context as the extraction leaves it
    ([seen]), and its outcome is the outcome of the middleware, which adds
    no failure of its own.  A category whose header is missing or empty
    keeps its field as it was before the request (unset in a context where
    it was unset).  A category whose header carries any non-empty value,
    well-formed or not, has that value stored in its field for the
    application to see, after the normalisation of its category and
    without any validation. *)
Theorem request_always_forwarded (app : ASGIApp) (scope : Scope) (w : World) :
  let seen := if is_request_scope scope then run (extract scope) w else w in
  result (__call__ app scope) w = result (app scope) seen /\
  (forall cat, truthy (found cat scope) = false ->
               result (stored cat) seen = result (stored cat) w) /\
  (forall cat v, is_request_scope scope = true ->
                 found cat scope = Some v -> v <> "" ->
                 result (stored cat) seen = Some (normalised cat v)).
Proof.
  unfold __call__. destruct (is_request_scope scope); simpl;
    (split; [| split]).
  - now rewrite result_bind, try_finally_result.
  - intros cat Hno. now apply extract_keeps_unfound.
  - intros cat v _ Hfound Hv. now apply extract_stores_found.
  - reflexivity.
  - reflexivity.
  - intros cat v Hreq. discriminate Hreq.
Qed.

(** C7, as stated, fails on a malformed value that is not empty: a
    server-URL header that is no URL is no error and the request is
    forwarded, but the field does not remain unset; the value is stored. *)
Lemma malformed_server_url_stored :
  let scope := http_scope [("osdu_mcp_server_url", "not a url")] in
  let seen := run (extract scope) initial_world in
  is_request_scope scope = true /\
  result get_request_server_url initial_world = None /\
  result (__call__ idle_app scope) initial_world
  = result (idle_app scope) seen /\
  result get_request_server_url seen = Some "not a url" /\
  result get_request_server_url seen <> None.
Proof. vm_compute. repeat split. discriminate. Qed.

(** ** Empty header values *)

(** C9.  When the header found for a category carries the empty string,
    the middleware acts as if the header were absent: after the extraction
    the category's field is what it was before (unset, in the context of a
    new request), and so is the category's source entry of the metadata
    (none is recorded). *)
Theorem empty_header_treated_as_absent
    (cat : Category) (scope : Scope) (w : World) (dflt : pyval) :
  found cat scope = Some "" ->
  result (stored cat) (run (extract scope) w) = result (stored cat) w /\
  result (get_request_metadata (source_key cat) dflt) (run (extract scope) w)
  = result (get_request_metadata (source_key cat) dflt) w.
Proof.
  intros Hempty. split.
  - apply extract_keeps_unfound. now rewrite Hempty.
  - rewrite extract_steps, !run_bind. destruct cat; simpl source_key.
    + rewrite store_data_partition_metadata by discriminate.
      rewrite store_server_url_metadata by discriminate.
      now rewrite Hempty.
    + rewrite store_data_partition_metadata by discriminate.
      rewrite Hempty. change (run (store_server_url (Some "")) ?x) with x.
      now rewrite store_token_metadata by discriminate.
    + rewrite Hempty. change (run (store_data_partition (Some "")) ?x) with x.
      rewrite store_server_url_metadata by discriminate.
      now rewrite store_token_metadata by discriminate.
Qed.

Lemma empty_header_treated_as_absent_witness :
  let scope := http_scope [("osdu_mcp_data_partition", "");
                           ("x-osdu-mcp-data-partition", "opendes");
                           ("osdu_mcp_user_token", "abc")] in
  found DataPartition scope = Some "" /\
  result get_request_data_partition (run (extract scope) initial_world) = None /\
  result (get_request_metadata "data_partition_source" PyNone)
         (run (extract scope) initial_world) = PyNone /\
  result (get_request_metadata "token_source" PyNone)
         (run (extract scope) initial_world) = PyStr "http_header" /\
  (result (stored DataPartition) (run (extract scope) initial_world)
   = result (stored DataPartition) initial_world /\
   result (get_request_metadata (source_key DataPartition) PyNone)
          (run (extract scope) initial_world)
   = result (get_request_metadata (source_key DataPartition) PyNone) initial_world).
Proof.
  split; [vm_compute; reflexivity |]. split; [vm_compute; reflexivity |].
  split; [vm_compute; reflexivity |]. split; [vm_compute; reflexivity |].
  apply (empty_header_treated_as_absent DataPartition
           (http_scope [("osdu_mcp_data_partition", "");
                        ("x-osdu-mcp-data-partition", "opendes");
                        ("osdu_mcp_user_token", "abc")])
           initial_world PyNone).
  vm_compute; reflexivity.
Defined.

(** ** Several requests *)

Lemma in_task_eq {A} (i : nat) (m : M A) (s : System) :
  in_task i m s =
  (result m (mkWorld (shared s) (context_of s i)),
   mkSystem (heap (run m (mkWorld (shared s) (context_of s i))))
            (<[i := ctx (run m (mkWorld (shared s) (context_of s i)))]> (tasks s))).
Proof. unfold in_task, result, run. now destruct (m _). Qed.

(** What runs in one task rebinds no variable of another task. *)
Lemma in_task_other_context {A} (i j : nat) (m : M A) (s : System) :
  i <> j -> context_of (snd (in_task i m s)) j = context_of s j.
Proof.
  intros Hne. rewrite in_task_eq. unfold context_of. simpl.
  now rewrite lookup_insert_ne.
Qed.

(** So the three scalar fields of a task are out of reach of the others. *)
Lemma scalar_fields_isolated {A} (i j : nat) (m : M A) (s : System) :
  i <> j ->
  fst (in_task j get_request_user_token (snd (in_task i m s)))
  = fst (in_task j get_request_user_token s) /\
  fst (in_task j get_request_server_url (snd (in_task i m s)))
  = fst (in_task j get_request_server_url s) /\
  fst (in_task j get_request_data_partition (snd (in_task i m s)))
  = fst (in_task j get_request_data_partition s).
Proof.
  intros Hne. rewrite !(in_task_eq j). simpl.
  rewrite (in_task_other_context i j m s Hne). repeat split.
Qed.

(** In a context that has no binding for [_request_metadata], the setter
    writes into the default dictionary itself ... *)
Lemma set_request_metadata_unbound key value (h : Heap) (c : Context) :
  _request_metadata c = None ->
  heap (run (set_request_metadata key value) (mkWorld h c))
  = setitem DefaultDict key value h.
Proof. destruct c as [t u p m]; simpl. now intros ->. Qed.

(** ... and the getter reads from it. *)
Lemma get_request_metadata_unbound key dflt (h : Heap) (c : Context) :
  _request_metadata c = None ->
  result (get_request_metadata key dflt) (mkWorld h c)
  = default dflt (default_dict h !! key).
Proof. destruct c as [t u p m]; simpl. now intros ->. Qed.

(** C10.  [set_request_metadata] changes the dictionary it gets from the
    variable in place, and a context without a binding gets the variable's
    default, one dictionary for the whole process.  Hence, for two distinct
    tasks neither of which has set or cleared its metadata: after one of
    them sets a key, the shared default dictionary holds the key, and the
    other task reads the value under that key. *)
Theorem default_metadata_dict_shared
    (s : System) (i j : nat) (key : string) (value dflt : pyval) :
  i <> j ->
  _request_metadata (context_of s i) = None ->
  _request_metadata (context_of s j) = None ->
  let s' := snd (in_task i (set_request_metadata key value) s) in
  shared s' = setitem DefaultDict key value (shared s) /\
  fst (in_task j (get_request_metadata key dflt) s') = value.
Proof.
  intros Hne Hi Hj s'. subst s'.
  assert (Hshared : shared (snd (in_task i (set_request_metadata key value) s))
                    = setitem DefaultDict key value (shared s)).
  { rewrite in_task_eq. simpl shared. now apply set_request_metadata_unbound. }
  split; [exact Hshared |].
  rewrite (in_task_eq j). simpl fst.
  rewrite get_request_metadata_unbound
    by now rewrite in_task_other_context.
  rewrite Hshared. simpl. now rewrite lookup_insert_eq.
Qed.

Lemma default_metadata_dict_shared_witness :
  1%nat <> 2%nat /\
  _request_metadata (context_of initial_system 1) = None /\
  _request_metadata (context_of initial_system 2) = None /\
  let s' := snd (in_task 1 (set_request_metadata "token_source" (PyStr "http_header"))
                         initial_system) in
  shared s' = setitem DefaultDict "token_source" (PyStr "http_header")
                      (shared initial_system) /\
  fst (in_task 2 (get_request_metadata "token_source" PyNone) s')
  = PyStr "http_header".
Proof.
  split; [discriminate |]. split; [reflexivity |]. split; [reflexivity |].
  apply (default_metadata_dict_shared initial_system 1 2 "token_source"
           (PyStr "http_header") PyNone);
    [discriminate | reflexivity | reflexivity].
Defined.

(** C8 does not hold of the metadata.  Two requests in tasks of their own,
    with overlapping lifetimes: request A carries a token header, request B
    carries no header at all.  B does not see A's token; but B, which
    recorded nothing, reads A's [token_source] entry, while A is in flight
    and still after A's cleanup. *)
Theorem metadata_visible_to_other_request :
  let request_a := http_scope [("osdu_mcp_user_token", "token-A")] in
  let request_b := http_scope [] in
  let s1 := snd (in_task 1 (extract request_a) initial_system) in
  let s2 := snd (in_task 2 (extract request_b) s1) in
  let s3 := snd (in_task 1 cleanup s2) in
  fst (in_task 1 get_request_user_token s2) = Some "token-A" /\
  fst (in_task 2 get_request_user_token s2) = None /\
  fst (in_task 2 (get_request_metadata "token_source" PyNone) s2)
  = PyStr "http_header" /\
  fst (in_task 1 (get_request_metadata "token_source" PyNone) s3) = PyNone /\
  fst (in_task 2 (get_request_metadata "token_source" PyNone) s3)
  = PyStr "http_header".
Proof. vm_compute. repeat split. Qed.

(** C2 does not hold of the metadata.  Two requests one after the other,
    each in a task of its own, in a process just started.  The first
    carries a token header and is served to its end, cleanup included,
    whether its application returns ([idle_app]) or raises
    ([failing_app]).  In the context it ran in, every getter then answers
    its default.  The second request carries no header; what it reads
    under "token_source" is not the caller's default but the entry of the
    first request, left in the shared default dictionary. *)
Theorem stale_metadata_after_completed_request :
  let request_a := http_scope [("osdu_mcp_user_token", "token-A")] in
  let request_b := http_scope [] in
  let s1 := snd (in_task 1 (__call__ idle_app request_a) initial_system) in
  let s1' := snd (in_task 1 (__call__ failing_app request_a) initial_system) in
  let s2 := snd (in_task 2 (extract request_b) s1) in
  let s2' := snd (in_task 2 (extract request_b) s1') in
  fst (in_task 1 (__call__ idle_app request_a) initial_system) = Returned /\
  fst (in_task 1 (__call__ failing_app request_a) initial_system)
  = Raised "RuntimeError" /\
  fst (in_task 1 (get_request_metadata "token_source" PyNone) s1) = PyNone /\
  fst (in_task 2 get_request_user_token s2) = None /\
  fst (in_task 2 (get_request_metadata "token_source" PyNone) s2)
  = PyStr "http_header" /\
  fst (in_task 2 (get_request_metadata "token_source" PyNone) s2')
  = PyStr "http_header".
Proof. vm_compute. repeat split. Qed.

(** ** The Auth Resolver *)

(** C1.  On every call of the resolver: when the context holds a token,
    that very token is returned and neither the context nor the resolver
    changes (the static path is not entered, the provider is not asked);
    when the token is unset, and in particular after a token that was set
    has been cleared, the answer is the one of the static credential path,
    which is the configured static token when there is one. *)
Theorem request_token_takes_precedence (a : Resolver) (w : World) :
  (forall t, result get_request_user_token w = Some t ->
             get_access_token a w = ((AccessToken t, a), w)) /\
  (result get_request_user_token w = None ->
   result (get_access_token a) w = static_credential_path a) /\
  (forall t,
     result (get_access_token a)
            (run (bind (set_request_user_token (Some t))
                       (fun _ => clear_request_user_token)) w)
     = static_credential_path a) /\
  (forall s, static_token a = Some s ->
             fst (static_credential_path a) = AccessToken s /\
             provider_calls (snd (static_credential_path a)) = provider_calls a).
Proof.
  unfold get_access_token. split; [| split; [| split]].
  - intros t Ht. unfold bind, get_request_user_token, user_token_get, result in *.
    simpl in *. now rewrite Ht.
  - intros Ht. unfold bind, get_request_user_token, user_token_get, result in *.
    simpl in *. now rewrite Ht.
  - intros t. reflexivity.
  - intros s Hs. unfold static_credential_path. rewrite Hs. split; reflexivity.
Qed.

(** * Further properties of the request context store *)

(** X1.  Each of the three scalar fields is a cell of its own: reading a
    field after setting it gives the value set, whatever was there before;
    setting (or clearing) one field changes neither of the other two nor
    any metadata lookup; clearing a field makes its getter answer [None]. *)
Theorem scalar_field_laws (cat : Category) (v : option string) (w : World) :
  result (stored cat) (run (setter cat v) w) = v /\
  result (stored cat) (run (clearer cat) w) = None /\
  (forall cat', cat' <> cat ->
     result (stored cat') (run (setter cat v) w) = result (stored cat') w /\
     result (stored cat') (run (clearer cat) w) = result (stored cat') w) /\
  (forall key dflt,
     result (get_request_metadata key dflt) (run (setter cat v) w)
     = result (get_request_metadata key dflt) w /\
     result (get_request_metadata key dflt) (run (clearer cat) w)
     = result (get_request_metadata key dflt) w).
Proof.
  split; [now destruct cat |]. split; [now destruct cat |]. split.
  - intros cat' Hne. destruct cat, cat'; try contradiction; split; reflexivity.
  - intros key dflt. destruct_world w; destruct cat; split; reflexivity.
Qed.

(** Writing a key keeps the reference of the context valid. *)
Lemma set_request_metadata_valid key value (w : World) :
  metadata_ref_valid (heap w) (ctx w) = true ->
  metadata_ref_valid (heap (run (set_request_metadata key value) w))
                     (ctx (run (set_request_metadata key value) w)) = true.
Proof.
  destruct_world w; unfold metadata_ref_valid; simpl; intros Hv;
    try reflexivity.
  - apply Nat.ltb_lt. rewrite length_insert, length_app. simpl. lia.
  - now rewrite length_insert.
Qed.

(** In a context whose reference is valid, a key just written is read back. *)
Lemma get_set_request_metadata key value dflt (w : World) :
  metadata_ref_valid (heap w) (ctx w) = true ->
  result (get_request_metadata key dflt) (run (set_request_metadata key value) w)
  = value.
Proof.
  destruct_world w; unfold metadata_ref_valid; ctx_unfold; simpl; intros Hv.
  - rewrite list_lookup_insert_eq by (rewrite length_app; simpl; lia).
    simpl. now rewrite lookup_insert_eq.
  - now rewrite lookup_insert_eq.
  - apply Nat.ltb_lt in Hv. rewrite list_lookup_insert_eq by exact Hv.
    simpl. now rewrite lookup_insert_eq.
  - now rewrite lookup_insert_eq.
Qed.

(** X2.  The metadata of one context behaves as a mapping: after
    [set_request_metadata key value] the lookup of [key] gives [value], and
    the lookup of every other key gives what it gave before. *)
Theorem metadata_set_get (key : string) (value : pyval) (w : World) :
  metadata_ref_valid (heap w) (ctx w) = true ->
  (forall dflt,
     result (get_request_metadata key dflt)
            (run (set_request_metadata key value) w) = value) /\
  (forall key' dflt, key' <> key ->
     result (get_request_metadata key' dflt)
            (run (set_request_metadata key value) w)
     = result (get_request_metadata key' dflt) w).
Proof.
  intros Hv. split.
  - intros dflt. now apply get_set_request_metadata.
  - intros key' dflt Hne. now apply set_request_metadata_other.
Qed.

Lemma metadata_set_get_witness :
  metadata_ref_valid (heap initial_world) (ctx initial_world) = true /\
  (forall dflt,
     result (get_request_metadata "key1" dflt)
            (run (set_request_metadata "key1" (PyStr "value1")) initial_world)
     = PyStr "value1") /\
  (forall key' dflt, key' <> "key1" ->
     result (get_request_metadata key' dflt)
            (run (set_request_metadata "key1" (PyStr "value1")) initial_world)
     = result (get_request_metadata key' dflt) initial_world).
Proof.
  split; [reflexivity |].
  apply (metadata_set_get "key1" (PyStr "value1") initial_world). reflexivity.
Defined.

(** X3.  Entries accumulate and a later write wins: after two writes in a
    row the second key reads as the second value, and the first key still
    reads as the first value unless the second write was to the same key. *)
Theorem metadata_writes_accumulate
    (key1 key2 : string) (value1 value2 : pyval) (w : World) :
  metadata_ref_valid (heap w) (ctx w) = true ->
  let after := run (bind (set_request_metadata key1 value1)
                         (fun _ => set_request_metadata key2 value2)) w in
  (forall dflt, result (get_request_metadata key2 dflt) after = value2) /\
  (forall dflt, key1 <> key2 ->
                result (get_request_metadata key1 dflt) after = value1).
Proof.
  intros Hv after. subst after. rewrite run_bind.
  pose proof (set_request_metadata_valid key1 value1 w Hv) as Hv1. split.
  - intros dflt. now apply get_set_request_metadata.
  - intros dflt Hne. rewrite set_request_metadata_other by exact Hne.
    now apply get_set_request_metadata.
Qed.

Lemma metadata_writes_accumulate_witness :
  metadata_ref_valid (heap (run clear_request_metadata initial_world))
                     (ctx (run clear_request_metadata initial_world)) = true /\
  let after := run (bind (set_request_metadata "key1" (PyStr "value1"))
                         (fun _ => set_request_metadata "key2" (PyStr "value2")))
                   (run clear_request_metadata initial_world) in
  (forall dflt, result (get_request_metadata "key2" dflt) after = PyStr "value2") /\
  (forall dflt, "key1" <> "key2" ->
                result (get_request_metadata "key1" dflt) after = PyStr "value1").
Proof.
  split; [reflexivity |].
  apply (metadata_writes_accumulate "key1" "key2" (PyStr "value1") (PyStr "value2")
           (run clear_request_metadata initial_world)).
  reflexivity.
Defined.

(** X4.  [clear_request_metadata] gives the current context a new, empty
    mapping and touches no dictionary that exists: afterwards every lookup
    in this context answers the caller's default, while the default
    dictionary and every dictionary created before hold what they held
    (entries written into the default dictionary stay there). *)
Theorem clear_request_metadata_rebinds (w : World) :
  let after := run clear_request_metadata w in
  (forall key dflt, result (get_request_metadata key dflt) after = dflt) /\
  default_dict (heap after) = default_dict (heap w) /\
  (forall n, (n < length (allocated (heap w)))%nat ->
             deref (heap after) (Allocated n) = deref (heap w) (Allocated n)) /\
  metadata_ref_valid (heap after) (ctx after) = true.
Proof.
  destruct w as [[dd al] c]. simpl. split; [| split; [| split]].
  - intros key dflt. ctx_unfold; simpl. now rewrite lookup_fresh_dict.
  - reflexivity.
  - intros n Hn. now rewrite lookup_app_l.
  - unfold metadata_ref_valid. simpl. apply Nat.ltb_lt.
    rewrite length_app. simpl. lia.
Qed.

(** A write changes what is read through another context only when that
    context refers to the dictionary written to. *)
Lemma set_request_metadata_elsewhere
    (h : Heap) (ci cj : Context) (key key' : string) (value dflt : pyval) :
  read_dict cj <> Some (written_dict h ci) ->
  result (get_request_metadata key' dflt)
         (mkWorld (heap (run (set_request_metadata key value) (mkWorld h ci))) cj)
  = result (get_request_metadata key' dflt) (mkWorld h cj).
Proof.
  destruct h as [dd al].
  destruct ci as [ti ui pi [[|[|m]]|]], cj as [tj uj pj [[|[|n]]|]];
    unfold read_dict, written_dict; ctx_unfold; simpl; intros Hne;
    try reflexivity; try (exfalso; apply Hne; reflexivity).
  - assert (n <> length al) by congruence.
    rewrite list_lookup_insert_ne by congruence.
    destruct (decide (n < length al)%nat) as [Hlt | Hge].
    + now rewrite lookup_app_l.
    + rewrite !lookup_ge_None_2; [reflexivity | lia |].
      rewrite length_app. simpl. lia.
  - assert (n <> m) by congruence.
    now rewrite list_lookup_insert_ne by congruence.
Qed.

(** A write leaves the context bound to the dictionary it wrote to, and
    changes the default dictionary only when that is the one written to. *)
Lemma set_request_metadata_written (h : Heap) (c : Context) (key : string)
    (value : pyval) :
  let w' := run (set_request_metadata key value) (mkWorld h c) in
  written_dict (heap w') (ctx w') = written_dict h c /\
  (written_dict h c <> DefaultDict -> default_dict (heap w') = default_dict h).
Proof.
  destruct h as [dd al]. destruct c as [t u p [[|[|m]]|]];
    unfold written_dict; simpl; split; try reflexivity; try congruence.
Qed.

Lemma set_all_elsewhere
    (writes : list (string * pyval)) (h : Heap) (ci cj : Context)
    (key' : string) (dflt : pyval) :
  read_dict cj <> Some (written_dict h ci) ->
  written_dict h ci <> DefaultDict ->
  result (get_request_metadata key' dflt)
         (mkWorld (heap (run (set_all writes) (mkWorld h ci))) cj)
  = result (get_request_metadata key' dflt) (mkWorld h cj) /\
  default_dict (heap (run (set_all writes) (mkWorld h ci))) = default_dict h.
Proof.
  revert h ci; induction writes as [|[k v] writes IH]; intros h ci Hne Hnd.
  - split; reflexivity.
  - simpl set_all. rewrite run_bind.
    destruct (set_request_metadata_written h ci k v) as [Hw Hd].
    rewrite <- (set_request_metadata_elsewhere h ci cj k key' v dflt Hne).
    rewrite <- (Hd Hnd).
    destruct (run (set_request_metadata k v) (mkWorld h ci)) as [h1 c1].
    simpl in *. apply IH; now rewrite Hw.
Qed.

(** X5.  A write through one context changes what another context reads
    only when both refer to the same dictionary.  [clear_request_metadata]
    makes the clearing context refer to a dictionary that no context
    existing at that moment refers to; hence, however many writes follow
    the clear, they change neither the default dictionary nor what such a
    context reads under any key.  (A context copied from the clearing one
    after the clear refers to the same dictionary and is not among them.) *)
Theorem metadata_writes_confined_to_dictionary
    (h : Heap) (ci cj : Context) :
  metadata_ref_valid h cj = true ->
  (forall key value key' dflt,
     read_dict cj <> Some (written_dict h ci) ->
     result (get_request_metadata key' dflt)
            (mkWorld (heap (run (set_request_metadata key value) (mkWorld h ci))) cj)
     = result (get_request_metadata key' dflt) (mkWorld h cj)) /\
  (let cleared := run clear_request_metadata (mkWorld h ci) in
   read_dict cj <> Some (written_dict (heap cleared) (ctx cleared)) /\
   forall writes key' dflt,
     result (get_request_metadata key' dflt)
            (mkWorld (heap (run (set_all writes) cleared)) cj)
     = result (get_request_metadata key' dflt) (mkWorld h cj) /\
     default_dict (heap (run (set_all writes) cleared)) = default_dict h).
Proof.
  intros Hv. split.
  - intros key value key' dflt Hne. now apply set_request_metadata_elsewhere.
  - assert (Hnew : read_dict cj
                   <> Some (written_dict
                              (heap (run clear_request_metadata (mkWorld h ci)))
                              (ctx (run clear_request_metadata (mkWorld h ci))))).
    { destruct h as [dd al]. destruct cj as [tj uj pj [[|[|n]]|]];
        unfold read_dict, written_dict, metadata_ref_valid in *; simpl in *;
        try discriminate.
      apply Nat.ltb_lt in Hv. intros [= ->]. lia. }
    split; [exact Hnew |]. intros writes key' dflt.
    destruct (clear_request_metadata_rebinds (mkWorld h ci)) as (_ & Hdd & Hold & _).
    destruct (run clear_request_metadata (mkWorld h ci)) as [h1 c1] eqn:E.
    simpl in *.
    destruct (set_all_elsewhere writes h1 c1 cj key' dflt Hnew) as [Hread Hdef].
    { destruct h as [dd al]. unfold clear_request_metadata in E.
      ctx_unfold. simpl in E. injection E as <- <-. discriminate. }
    rewrite Hread, Hdef. split; [| exact Hdd].
    destruct cj as [tj uj pj [[|[|n]]|]]; unfold metadata_ref_valid in Hv;
      ctx_unfold; simpl in *; try reflexivity.
    + now rewrite Hdd.
    + apply Nat.ltb_lt in Hv. now rewrite (Hold n Hv).
    + now rewrite Hdd.
Qed.

Lemma metadata_writes_confined_to_dictionary_witness :
  let cleared := run clear_request_metadata initial_world in
  let writes := [("token_source", PyStr "http_header");
                 ("server_url_source", PyStr "http_header")] in
  metadata_ref_valid initial_heap empty_context = true /\
  result (get_request_metadata "token_source" PyNone) (run (set_all writes) cleared)
  = PyStr "http_header" /\
  result (get_request_metadata "token_source" PyNone)
         (mkWorld (heap (run (set_all writes) cleared)) (ctx cleared))
  = PyStr "http_header" /\
  result (get_request_metadata "token_source" PyNone)
         (mkWorld (heap (run (set_all writes) cleared)) empty_context)
  = PyNone /\
  ((forall key value key' dflt,
      read_dict empty_context <> Some (written_dict initial_heap empty_context) ->
      result (get_request_metadata key' dflt)
             (mkWorld (heap (run (set_request_metadata key value)
                                 (mkWorld initial_heap empty_context)))
                      empty_context)
      = result (get_request_metadata key' dflt)
               (mkWorld initial_heap empty_context)) /\
   (let cleared := run clear_request_metadata (mkWorld initial_heap empty_context) in
    read_dict empty_context <> Some (written_dict (heap cleared) (ctx cleared)) /\
    forall writes key' dflt,
      result (get_request_metadata key' dflt)
             (mkWorld (heap (run (set_all writes) cleared)) empty_context)
      = result (get_request_metadata key' dflt)
               (mkWorld initial_heap empty_context) /\
      default_dict (heap (run (set_all writes) cleared))
      = default_dict initial_heap)).
Proof.
  split; [reflexivity |]. split; [vm_compute; reflexivity |].
  split; [vm_compute; reflexivity |]. split; [vm_compute; reflexivity |].
  apply (metadata_writes_confined_to_dictionary initial_heap empty_context
           empty_context).
  reflexivity.
Defined.

(** * Further properties of the header lookup *)

(** What [dict(pairs)] holds under a key depends on the pairs alone that
    carry the key. *)
Lemma foldl_insert_lookup_congr
    (pairs : list (string * string)) (d1 d2 : gmap string string) (k : string) :
  d1 !! k = d2 !! k ->
  foldl (fun d kv => <[kv.1 := kv.2]> d) d1 pairs !! k
  = foldl (fun d kv => <[kv.1 := kv.2]> d) d2 pairs !! k.
Proof.
  revert d1 d2; induction pairs as [|[k' v'] pairs IH]; intros d1 d2 H; simpl;
    [exact H |].
  apply IH. destruct (decide (k' = k)) as [-> | Hne].
  - now rewrite !lookup_insert_eq.
  - now rewrite !lookup_insert_ne.
Qed.


Lemma dict_of_pairs_app (l1 l2 : list (string * string)) :
  dict_of_pairs (l1 ++ l2)
  = foldl (fun d kv => <[kv.1 := kv.2]> d) (dict_of_pairs l1) l2.
Proof. unfold dict_of_pairs. apply foldl_app. Qed.

(** Every entry of [dict(pairs)] is one of the pairs. *)
Lemma dict_of_pairs_lookup_Some (pairs : list (string * string)) (k v : string) :
  dict_of_pairs pairs !! k = Some v -> (k, v) ∈ pairs.
Proof.
  induction pairs as [|[k' v'] pairs IH] using rev_ind; [discriminate |].
  rewrite dict_of_pairs_app. simpl. intros H.
  destruct (decide (k' = k)) as [-> | Hne].
  - rewrite lookup_insert_eq in H. injection H as ->.
    apply elem_of_app. right. apply list_elem_of_here.
  - rewrite lookup_insert_ne in H by exact Hne.
    apply elem_of_app. left. now apply IH.
Qed.

(** [_extract_header] reads the dictionary at the lowered names only. *)
Lemma _extract_header_ext (h1 h2 : gmap string string) (names : list string) :
  (forall name, name ∈ names -> h1 !! lower name = h2 !! lower name) ->
  _extract_header h1 names = _extract_header h2 names.
Proof.
  induction names as [|n names IH]; intros Heq; simpl; [reflexivity |].
  rewrite (Heq n) by apply list_elem_of_here.
  rewrite IH; [reflexivity |].
  intros name Hin. apply Heq. now apply list_elem_of_further.
Qed.

Lemma _extract_header_Some (headers : gmap string string) (names : list string)
    (v : string) :
  _extract_header headers names = Some v ->
  exists name, name ∈ names /\ headers !! lower name = Some v.
Proof.
  induction names as [|n names IH]; simpl; [discriminate |].
  destruct (headers !! lower n) as [v'|] eqn:E.
  - intros [= ->]. exists n. split; [apply list_elem_of_here | exact E].
  - intros H. destruct (IH H) as (name & Hin & Hv).
    exists name. split; [now apply list_elem_of_further | exact Hv].
Qed.

Lemma _extract_header_None (headers : gmap string string) (names : list string) :
  _extract_header headers names = None ->
  forall name, name ∈ names -> headers !! lower name = None.
Proof.
  induction names as [|n names IH]; simpl; intros H name Hin.
  - now apply elem_of_nil in Hin.
  - destruct (headers !! lower n) as [v'|] eqn:E; [discriminate |].
    apply elem_of_cons in Hin as [-> | Hin]; [exact E | now apply IH].
Qed.

(** X6.  What the middleware finds for a category is the value of one of
    that category's three headers, never anything else; and it finds
    nothing exactly when none of the three names is among the headers. *)
Theorem found_sound_and_complete (cat : Category) (scope : Scope) :
  (forall v, found cat scope = Some v ->
             exists name, name ∈ header_names cat /\
                          headers_of scope !! name = Some v) /\
  (found cat scope = None <->
   forall name, name ∈ header_names cat -> headers_of scope !! name = None).
Proof.
  unfold found. split; [| split].
  - intros v Hv. apply _extract_header_Some in Hv as (name & Hin & Hv).
    exists name. split; [exact Hin |].
    now rewrite (proj1 (configured_names_lower cat name Hin)) in Hv.
  - intros Hnone name Hin.
    pose proof (_extract_header_None _ _ Hnone name Hin) as H.
    now rewrite (proj1 (configured_names_lower cat name Hin)) in H.
  - intros Hnone. apply _extract_header_none. intros name Hin.
    rewrite (proj1 (configured_names_lower cat name Hin)). now apply Hnone.
Qed.



(** Dropping a pair changes the dictionary at the pair's key only. *)
Lemma dict_of_pairs_drop (before after : list (string * string)) (k v k' : string) :
  k' <> k ->
  dict_of_pairs (before ++ (k, v) :: after) !! k'
  = dict_of_pairs (before ++ after) !! k'.
Proof.
  intros Hne. rewrite !dict_of_pairs_app. simpl.
  apply foldl_insert_lookup_congr. now apply lookup_insert_ne.
Qed.

(** X8.  A header whose name is none of the nine configured names has no
    effect: the extraction does to the context what it does without that
    header. *)
Theorem unrelated_header_ignored
    (type : string) (before after : list (string * string)) (k v : string)
    (w : World) :
  k ∉ all_header_names ->
  extract (mkScope type (Some (before ++ (k, v) :: after)%list)) w
  = extract (mkScope type (Some (before ++ after)%list)) w.
Proof.
  intros Hk. rewrite !extract_steps.
  assert (Hf : forall cat,
             found cat (mkScope type (Some (before ++ (k, v) :: after)%list))
             = found cat (mkScope type (Some (before ++ after)%list))).
  { intros cat. unfold found, headers_of. simpl.
    apply _extract_header_ext. intros name Hin.
    apply dict_of_pairs_drop.
    rewrite (proj1 (configured_names_lower cat name Hin)).
    intros ->. apply Hk. unfold all_header_names.
    destruct cat; rewrite !elem_of_app; tauto. }
  now rewrite !Hf.
Qed.

Lemma unrelated_header_ignored_witness :
  ("authorization" ∉ all_header_names) /\
  extract (mkScope "http"
             (Some ([("osdu_mcp_data_partition", "opendes")]
                      ++ ("authorization", "Bearer xyz") :: [("host", "h")])%list))
          initial_world
  = extract (mkScope "http"
               (Some ([("osdu_mcp_data_partition", "opendes")]
                        ++ [("host", "h")])%list))
            initial_world.
Proof.
  assert (Hk : "authorization" ∉ all_header_names).
  { unfold all_header_names. simpl. intros Hin.
    repeat (apply elem_of_cons in Hin as [Hin | Hin]; [discriminate Hin |]).
    now apply elem_of_nil in Hin. }
  split; [exact Hk |].
  apply (unrelated_header_ignored "http" [("osdu_mcp_data_partition", "opendes")]
           [("host", "h")] "authorization" "Bearer xyz" initial_world Hk).
Defined.

Lemma lower_char_idem (a : ascii) : lower_char (lower_char a) = lower_char a.
Proof. destruct a as [[] [] [] [] [] [] [] []]; vm_compute; reflexivity. Qed.

Lemma lower_idem (s : string) : lower (lower s) = lower s.
Proof.
  induction s as [|a s IH]; simpl; [reflexivity |].
  now rewrite lower_char_idem, IH.
Qed.

(** X9.  The middleware itself compares names exactly: it looks the
    lower-cased configured names up, and a header that reaches it under a
    name that is not in lower case is never found, for any category. *)
Theorem capitalised_scope_names_unmatched (cat : Category) (scope : Scope) :
  (forall kv, kv ∈ default [] (scope_headers scope) -> lower kv.1 <> kv.1) ->
  found cat scope = None.
Proof.
  intros Hcap. unfold found. apply _extract_header_none. intros name _.
  destruct (headers_of scope !! lower name) as [v|] eqn:E; [| reflexivity].
  apply dict_of_pairs_lookup_Some in E.
  exfalso. apply (Hcap _ E). simpl. apply lower_idem.
Qed.

Lemma capitalised_scope_names_unmatched_witness :
  let scope := mkScope "http" (Some [("OSDU_MCP_USER_TOKEN", "abc")]) in
  (forall kv, kv ∈ default [] (scope_headers scope) -> lower kv.1 <> kv.1) /\
  found Token scope = None.
Proof.
  assert (Hcap : forall kv : string * string,
             kv ∈ default [] (scope_headers
                                (mkScope "http" (Some [("OSDU_MCP_USER_TOKEN", "abc")]))) ->
             lower kv.1 <> kv.1).
  { simpl. intros kv Hin. apply elem_of_cons in Hin as [-> | Hin];
      [vm_compute; discriminate | now apply elem_of_nil in Hin]. }
  split; [exact Hcap |].
  apply (capitalised_scope_names_unmatched Token
           (mkScope "http" (Some [("OSDU_MCP_USER_TOKEN", "abc")])) Hcap).
Defined.

(** * Further properties of the middleware *)

(** X10.  A non-empty data-partition value is stored exactly as received:
    no prefix and no trailing slash is removed from it. *)
Theorem data_partition_stored_verbatim (scope : Scope) (w : World) (v : string) :
  found DataPartition scope = Some v ->
  v <> "" ->
  result get_request_data_partition (run (extract scope) w) = Some v.
Proof.
  intros Hfound Hv. rewrite extract_data_partition, Hfound.
  now apply store_data_partition_stores.
Qed.

Lemma data_partition_stored_verbatim_witness :
  let scope := http_scope [("osdu-mcp-data-partition", "Bearer opendes//")] in
  found DataPartition scope = Some "Bearer opendes//" /\
  "Bearer opendes//" <> "" /\
  result get_request_data_partition (run (extract scope) initial_world)
  = Some "Bearer opendes//".
Proof.
  split; [vm_compute; reflexivity |]. split; [discriminate |].
  apply (data_partition_stored_verbatim
           (http_scope [("osdu-mcp-data-partition", "Bearer opendes//")])
           initial_world "Bearer opendes//");
    [vm_compute; reflexivity | discriminate].
Defined.

(** The three steps keep the reference of the context valid. *)
Lemma store_token_valid o (w : World) :
  metadata_ref_valid (heap w) (ctx w) = true ->
  metadata_ref_valid (heap (run (store_token o) w))
                     (ctx (run (store_token o) w)) = true.
Proof.
  intros Hv. unfold store_token. destruct o as [v|]; [| exact Hv].
  destruct (truthy (Some v)); [| exact Hv].
  rewrite run_bind. apply set_request_metadata_valid. exact Hv.
Qed.

Lemma store_server_url_valid o (w : World) :
  metadata_ref_valid (heap w) (ctx w) = true ->
  metadata_ref_valid (heap (run (store_server_url o) w))
                     (ctx (run (store_server_url o) w)) = true.
Proof.
  intros Hv. unfold store_server_url. destruct o as [v|]; [| exact Hv].
  destruct (truthy (Some v)); [| exact Hv].
  rewrite run_bind. apply set_request_metadata_valid. exact Hv.
Qed.

(** X11.  For every category whose header carries a non-empty value, the
    extraction records the provenance: afterwards the category's source
    key of the metadata reads "http_header" in the request's context. *)
Theorem source_recorded
    (cat : Category) (scope : Scope) (w : World) (v : string) (dflt : pyval) :
  metadata_ref_valid (heap w) (ctx w) = true ->
  found cat scope = Some v ->
  v <> "" ->
  result (get_request_metadata (source_key cat) dflt) (run (extract scope) w)
  = PyStr "http_header".
Proof.
  intros Hw Hfound Hv. rewrite extract_steps, !run_bind.
  pose proof (truthy_true v Hv) as Ht.
  destruct cat; simpl source_key.
  - rewrite store_data_partition_metadata by discriminate.
    rewrite store_server_url_metadata by discriminate.
    rewrite Hfound. unfold store_token. rewrite Ht, run_bind.
    now apply get_set_request_metadata.
  - rewrite store_data_partition_metadata by discriminate.
    rewrite Hfound. unfold store_server_url. rewrite Ht, run_bind.
    apply get_set_request_metadata.
    now apply (store_token_valid (found Token scope) w).
  - rewrite Hfound. unfold store_data_partition. rewrite Ht, run_bind.
    apply get_set_request_metadata.
    apply (store_server_url_valid (found ServerUrl scope)).
    now apply (store_token_valid (found Token scope) w).
Qed.

Lemma source_recorded_witness :
  let scope := http_scope [("osdu_mcp_server_url", "https://osdu.example.com")] in
  metadata_ref_valid (heap initial_world) (ctx initial_world) = true /\
  found ServerUrl scope = Some "https://osdu.example.com" /\
  "https://osdu.example.com" <> "" /\
  result (get_request_metadata (source_key ServerUrl) PyNone)
         (run (extract scope) initial_world) = PyStr "http_header".
Proof.
  split; [reflexivity |]. split; [vm_compute; reflexivity |].
  split; [discriminate |].
  apply (source_recorded ServerUrl
           (http_scope [("osdu_mcp_server_url", "https://osdu.example.com")])
           initial_world "https://osdu.example.com" PyNone);
    [reflexivity | vm_compute; reflexivity | discriminate].
Defined.

(** X12.  A scope whose type is neither "http" nor "websocket" (a lifespan
    scope) goes to the wrapped application as it is: its headers are not
    read, and nothing is cleared afterwards, so what the application leaves
    in the context stays. *)
Theorem non_request_scope_bypassed (app : ASGIApp) (scope : Scope) (w : World) :
  scope_type scope <> "http" ->
  scope_type scope <> "websocket" ->
  __call__ app scope w = app scope w.
Proof.
  intros Hh Hw. unfold __call__, is_request_scope.
  apply String.eqb_neq in Hh, Hw. now rewrite Hh, Hw.
Qed.

Lemma non_request_scope_bypassed_witness :
  let scope := mkScope "lifespan" (Some [("osdu_mcp_user_token", "abc")]) in
  scope_type scope <> "http" /\
  scope_type scope <> "websocket" /\
  result get_request_user_token (run (__call__ url_setting_app scope) initial_world)
  = None /\
  result get_request_server_url (run (__call__ url_setting_app scope) initial_world)
  = Some "https://set.by.app" /\
  __call__ url_setting_app scope initial_world = url_setting_app scope initial_world.
Proof.
  split; [discriminate |]. split; [discriminate |].
  split; [reflexivity |]. split; [reflexivity |].
  apply (non_request_scope_bypassed url_setting_app
           (mkScope "lifespan" (Some [("osdu_mcp_user_token", "abc")]))
           initial_world); discriminate.
Defined.

(** What [set_request_metadata] leaves of the default dictionary: under
    every other key, what was there. *)
Lemma set_request_metadata_default_dict key key' value (w : World) :
  key' <> key ->
  default_dict (heap (run (set_request_metadata key value) w)) !! key'
  = default_dict (heap w) !! key'.
Proof.
  intros Hne. destruct_world w; simpl; try reflexivity.
  - apply lookup_insert_ne. congruence.
  - apply lookup_insert_ne. congruence.
Qed.

Lemma store_server_url_default_dict o key' (w : World) :
  key' <> "server_url_source" ->
  default_dict (heap (run (store_server_url o) w)) !! key'
  = default_dict (heap w) !! key'.
Proof.
  intros Hne. unfold store_server_url. destruct o as [v|]; [| reflexivity].
  destruct (truthy (Some v)); [| reflexivity].
  rewrite run_bind. now rewrite set_request_metadata_default_dict.
Qed.

Lemma store_data_partition_default_dict o key' (w : World) :
  key' <> "data_partition_source" ->
  default_dict (heap (run (store_data_partition o) w)) !! key'
  = default_dict (heap w) !! key'.
Proof.
  intros Hne. unfold store_data_partition. destruct o as [v|]; [| reflexivity].
  destruct (truthy (Some v)); [| reflexivity].
  rewrite run_bind. now rewrite set_request_metadata_default_dict.
Qed.

Lemma cleanup_default_dict (w : World) :
  default_dict (heap (run cleanup w)) = default_dict (heap w).
Proof. now destruct w as [[dd al] c]. Qed.

(** X13.  The cleanup does not undo what the extraction wrote into the
    shared default dictionary.  When a request with a non-empty token
    header is served in a context that has no metadata binding, and the
    wrapped application leaves the default dictionary's "token_source"
    entry alone, then after the request has completed, cleanup included,
    any other context without a metadata binding reads "token_source" as
    "http_header". *)
Theorem source_entry_outlives_request
    (s : System) (i j : nat) (app : ASGIApp) (scope : Scope) (dflt : pyval) :
  i <> j ->
  _request_metadata (context_of s i) = None ->
  _request_metadata (context_of s j) = None ->
  is_request_scope scope = true ->
  truthy (found Token scope) = true ->
  (forall w, default_dict (heap (run (app scope) w)) !! "token_source"
             = default_dict (heap w) !! "token_source") ->
  fst (in_task j (get_request_metadata "token_source" dflt)
                 (snd (in_task i (__call__ app scope) s)))
  = PyStr "http_header".
Proof.
  intros Hne Hi Hj Hreq Htok Happ.
  rewrite (in_task_eq j). simpl fst.
  rewrite get_request_metadata_unbound
    by now rewrite in_task_other_context.
  rewrite in_task_eq. simpl shared.
  unfold __call__. rewrite Hreq. simpl negb. cbv iota.
  rewrite run_bind, try_finally_run, cleanup_default_dict, Happ.
  rewrite extract_steps, !run_bind.
  rewrite store_data_partition_default_dict by discriminate.
  rewrite store_server_url_default_dict by discriminate.
  destruct (found Token scope) as [v|]; [| discriminate Htok].
  unfold store_token. rewrite Htok, run_bind.
  set (w1 := run (set_request_user_token _) _).
  assert (Hw1 : _request_metadata (ctx w1) = None) by exact Hi.
  destruct w1 as [h1 c1]. simpl in Hw1.
  rewrite (set_request_metadata_unbound _ _ h1 c1 Hw1). simpl.
  now rewrite lookup_insert_eq.
Qed.

Lemma source_entry_outlives_request_witness :
  let scope := http_scope [("osdu_mcp_user_token", "token-A")] in
  1%nat <> 2%nat /\
  _request_metadata (context_of initial_system 1) = None /\
  _request_metadata (context_of initial_system 2) = None /\
  is_request_scope scope = true /\
  truthy (found Token scope) = true /\
  (forall w, default_dict (heap (run (idle_app scope) w)) !! "token_source"
             = default_dict (heap w) !! "token_source") /\
  fst (in_task 2 (get_request_metadata "token_source" PyNone)
                 (snd (in_task 1 (__call__ idle_app scope) initial_system)))
  = PyStr "http_header".
Proof.
  split; [discriminate |]. split; [reflexivity |]. split; [reflexivity |].
  split; [reflexivity |]. split; [vm_compute; reflexivity |].
  split; [intros w; reflexivity |].
  apply (source_entry_outlives_request initial_system 1 2 idle_app
           (http_scope [("osdu_mcp_user_token", "token-A")]) PyNone);
    [discriminate | reflexivity | reflexivity | reflexivity
    | vm_compute; reflexivity | intros w; reflexivity].
Defined.

Lemma slice_from_length (v : string) : slice_from (String.length v) v = "".
Proof. induction v as [|a v IH]; simpl; [reflexivity | exact IH]. Qed.

(** X14.  A token header that consists of the prefix alone ("Bearer " in
    any letter case and nothing after it) is not treated as absent: the
    empty string is stored as the user token. *)
Theorem bare_bearer_prefix_stores_empty_token
    (scope : Scope) (w : World) (v : string) :
  found Token scope = Some v ->
  has_bearer_prefix v ->
  String.length v = 7 ->
  result get_request_user_token (run (extract scope) w) = Some "".
Proof.
  intros Hfound Hpre Hlen.
  assert (Hv : v <> "") by (intros ->; discriminate Hlen).
  rewrite extract_user_token, Hfound, store_token_stores by exact Hv.
  rewrite (proj2 (startswith_bearer_iff v) Hpre).
  rewrite <- Hlen. now rewrite slice_from_length.
Qed.

Lemma bare_bearer_prefix_stores_empty_token_witness :
  let scope := http_scope [("osdu_mcp_user_token", "BEARER ")] in
  found Token scope = Some "BEARER " /\
  has_bearer_prefix "BEARER " /\
  String.length "BEARER " = 7 /\
  result get_request_user_token (run (extract scope) initial_world) = Some "".
Proof.
  split; [vm_compute; reflexivity |].
  assert (Hpre : has_bearer_prefix "BEARER ").
  { exists "BEARER ", "". repeat split. }
  split; [exact Hpre |]. split; [reflexivity |].
  apply (bare_bearer_prefix_stores_empty_token
           (http_scope [("osdu_mcp_user_token", "BEARER ")])
           initial_world "BEARER ");
    [vm_compute; reflexivity | exact Hpre | reflexivity].
Defined.

Lemma rstrip_repeat_char (c : ascii) (k : nat) : rstrip c (repeat_char c k) = "".
Proof.
  induction k as [|k IH]; simpl; [reflexivity |].
  rewrite IH. now rewrite Ascii.eqb_refl.
Qed.

(** X15.  A server-URL header that consists of slashes only is not treated
    as absent either: the empty string is stored as the server URL. *)
Theorem slashes_only_store_empty_server_url
    (scope : Scope) (w : World) (k : nat) :
  found ServerUrl scope = Some (repeat_char "/" (S k)) ->
  result get_request_server_url (run (extract scope) w) = Some "".
Proof.
  intros Hfound.
  rewrite extract_server_url, Hfound, store_server_url_stores by discriminate.
  now rewrite rstrip_repeat_char.
Qed.

Lemma slashes_only_store_empty_server_url_witness :
  let scope := http_scope [("osdu_mcp_server_url", "//")] in
  found ServerUrl scope = Some (repeat_char "/" 2) /\
  result get_request_server_url (run (extract scope) initial_world) = Some "".
Proof.
  split; [vm_compute; reflexivity |].
  apply (slashes_only_store_empty_server_url
           (http_scope [("osdu_mcp_server_url", "//")]) initial_world 1).
  vm_compute; reflexivity.
Defined.
